(** * The client and password domain layer of the password manager API

    A shallow embedding of
    [apps/password-manager-api/src/repositories/client/client.repository.ts]
    and [controllers/get-passwords/get-passwords.controller.ts], with the
    collaborators they are injected with (storage gateway, logger, crypto
    provider, repositories) kept as calls answered by an environment, the
    way the unit tests answer them with mocks. *)

From Stdlib Require Import String Ascii List ZArith Eqdep_dec.
From stdpp Require Import base option list strings gmap fin_maps.
Import ListNotations.
Local Open Scope string_scope.
Local Open Scope Z_scope.

(** ** Data model *)

(** [HttpStatus] of [@nestjs/common]: the codes this layer uses. *)
Module HttpStatus.
Definition OK : Z := 200.
Definition BAD_REQUEST : Z := 400.
Definition NOT_FOUND : Z := 404.
Definition SERVICE_UNAVAILABLE : Z := 503.
End HttpStatus.

(** [PasswordManagerErrorCodeEnum] of [@password-manager:types]: the codes
    the repository and the unit tests name, which are the ones section 7 of
    the specification lists. *)
Inductive PasswordManagerErrorCodeEnum : Type :=
  | ClientNotFound
  | PasswordNotFound
  | LoginAlreadyExists
  | DynamoDBDown
  | ServiceUnavailable
  | NotFound.

#[global] Instance PasswordManagerErrorCodeEnum_eq_dec :
  EqDecision PasswordManagerErrorCodeEnum.
Proof. solve_decision. Defined.

Module PasswordManagerException.
(** Modelled from the spec: the exception class of
    [@password-manager:api:types] is not among the sources.  Section 7 of
    the specification gives its three fields and the status of each kind;
    the default message and error code of [notFound()] and
    [serviceUnavailable()] are the ones the unit tests read back from a
    freshly built exception. *)
Record t : Type := make {
  statusCode : Z;
  message : string;
  errorCode : PasswordManagerErrorCodeEnum
}.

Definition notFound : t :=
  {| statusCode := HttpStatus.NOT_FOUND;
     message := "Not Found";
     errorCode := NotFound |}.

Definition serviceUnavailable : t :=
  {| statusCode := HttpStatus.SERVICE_UNAVAILABLE;
     message := "Service Unavailable";
     errorCode := ServiceUnavailable |}.

Definition withMessage (m : string) (e : t) : t :=
  {| statusCode := statusCode e; message := m; errorCode := errorCode e |}.

Definition withErrorCode (c : PasswordManagerErrorCodeEnum) (e : t) : t :=
  {| statusCode := statusCode e; message := message e; errorCode := c |}.

#[global] Instance PasswordManagerException_eq_dec : EqDecision t.
Proof. solve_decision. Defined.
End PasswordManagerException.

(** What a [catch] clause or a rejected promise can carry: one of the
    domain exceptions, or any other error value (an SDK error, [new
    Error('Something broke')] in the tests). *)
Inductive Thrown : Type :=
  | Exception (e : PasswordManagerException.t)
  | JsError (name message : string).

#[global] Instance Thrown_eq_dec : EqDecision Thrown.
Proof. solve_decision. Defined.

(** The state a promise settles in. *)
Inductive Settled (A : Type) : Type :=
  | Resolved (value : A)
  | Rejected (reason : Thrown).
Arguments Resolved {A} value.
Arguments Rejected {A} reason.

#[global] Instance Settled_eq_dec `{EqDecision A} : EqDecision (Settled A).
Proof. solve_decision. Defined.

(** How a synchronous call ends: with a value, or with a throw. *)
Inductive Completion (A : Type) : Type :=
  | Returned (value : A)
  | Threw (reason : Thrown).
Arguments Returned {A} value.
Arguments Threw {A} reason.

(** The records of [@password-manager:types].  A [Client] has the fields
    [createClient] of the repository fills in, a [ClientInput] the two the
    repository reads; a [Password] has the fields of section 3 of the
    specification, [website] being a string or [null]. *)
Module Metadata.
Record t : Type := make { createdDate : string; updatedDate : string }.
#[global] Instance Metadata_eq_dec : EqDecision t.
Proof. solve_decision. Defined.
End Metadata.

Module Client.
Record t : Type := make {
  clientId : string;
  login : string;
  password : string;
  metadata : Metadata.t
}.
#[global] Instance Client_eq_dec : EqDecision t.
Proof. solve_decision. Defined.
End Client.

Module ClientInput.
Record t : Type := make { login : string; password : string }.
#[global] Instance ClientInput_eq_dec : EqDecision t.
Proof. solve_decision. Defined.
End ClientInput.

(** [ClientResponse = {clientId, login, metadata}] (section 6 of the
    specification): the view of a client that leaves the service, a type
    without a password field. *)
Module ClientResponse.
Record t : Type := make {
  clientId : string;
  login : string;
  metadata : Metadata.t
}.
#[global] Instance ClientResponse_eq_dec : EqDecision t.
Proof. solve_decision. Defined.
End ClientResponse.

Module Password.
Record t : Type := make {
  passwordId : string;
  name : string;
  website : option string;
  login : string;
  value : string;
  clientId : string;
  metadata : Metadata.t
}.
#[global] Instance Password_eq_dec : EqDecision t.
Proof. solve_decision. Defined.

(** [passwordEntry.value = v]: the assignment to one field. *)
Definition setValue (v : string) (p : t) : t :=
  {| passwordId := passwordId p; name := name p; website := website p;
     login := login p; value := v; clientId := clientId p;
     metadata := metadata p |}.
End Password.

(** ** The collaborators and their calls *)

(** The command objects of [@aws-sdk/lib-dynamodb], with the fields the
    repository fills in.  [Key], [ExpressionAttributeNames] and
    [ExpressionAttributeValues] are objects used as maps from attribute
    names or placeholders to strings. *)
Module GetCommandInput.
Record t : Type := make { TableName : string; Key : gmap string string }.
#[global] Instance GetCommandInput_eq_dec : EqDecision t.
Proof. solve_decision. Defined.
End GetCommandInput.

Module DeleteCommandInput.
Record t : Type := make { TableName : string; Key : gmap string string }.
#[global] Instance DeleteCommandInput_eq_dec : EqDecision t.
Proof. solve_decision. Defined.
End DeleteCommandInput.

Module QueryCommandInput.
Record t : Type := make {
  TableName : string;
  IndexName : string;
  KeyConditionExpression : string;
  ExpressionAttributeValues : gmap string string
}.
#[global] Instance QueryCommandInput_eq_dec : EqDecision t.
Proof. solve_decision. Defined.
End QueryCommandInput.

Module UpdateCommandInput.
Record t : Type := make {
  TableName : string;
  Key : gmap string string;
  UpdateExpression : string;
  ExpressionAttributeNames : gmap string string;
  ExpressionAttributeValues : gmap string string;
  ConditionExpression : string
}.
#[global] Instance UpdateCommandInput_eq_dec : EqDecision t.
Proof. solve_decision. Defined.
End UpdateCommandInput.

(** [{Item?}] and [{Items?}]: the field is absent ([None]) when the store
    found nothing, which is what [!result.Item] and [!result.Items] test. *)
Module GetCommandOutput.
Record t : Type := make { Item : option Client.t }.
End GetCommandOutput.

Module QueryCommandOutput.
Record t : Type := make { Items : option (list Client.t) }.
End QueryCommandOutput.

(** [IDynamoDBClient]: every method returns a promise. *)
Module IDynamoDBClient.
Inductive method : Type :=
  | get (table : string) (input : GetCommandInput.t)
  | query (table : string) (input : QueryCommandInput.t)
  | save (table : string) (item : Client.t)
  | update (table : string) (input : UpdateCommandInput.t)
  | delete (table : string) (input : DeleteCommandInput.t).

Definition answer (m : method) : Type :=
  match m with
  | get _ _ => Settled GetCommandOutput.t
  | query _ _ => Settled QueryCommandOutput.t
  | save _ _ | update _ _ | delete _ _ => Settled unit
  end.

#[global] Instance IDynamoDBClient_eq_dec : EqDecision method.
Proof. solve_decision. Defined.
End IDynamoDBClient.

(** [ILogger].  The second argument of a log call is an object
    [{dynamoDB: {table, login?, clientId?, error?}, error?}]; the record
    keeps which of the optional parts are present. *)
Module LogContext.
Record t : Type := make {
  table : string;
  login : option string;
  clientId : option string;
  error : option Thrown
}.
#[global] Instance LogContext_eq_dec : EqDecision t.
Proof. solve_decision. Defined.
End LogContext.

Module ILogger.
Inductive method : Type :=
  | info (message : string) (context : LogContext.t)
  | warn (message : string) (context : LogContext.t)
  | error (message : string) (context : LogContext.t).

#[global] Instance ILogger_eq_dec : EqDecision method.
Proof. solve_decision. Defined.
End ILogger.

(** [Crypto] of [@password-manager:crypto]: synchronous, string to string;
    a call returns or throws, and nothing in this layer catches what it
    throws. *)
Module Crypto.
Inductive method : Type :=
  | encrypt (plaintext : string)
  | decrypt (ciphertext : string).

#[global] Instance Crypto_eq_dec : EqDecision method.
Proof. solve_decision. Defined.
End Crypto.

(** [IClientRepository], as the client service sees it. *)
Module IClientRepository.
Inductive method : Type :=
  | getClientById (clientId : string)
  | getClientByLogin (login : string)
  | createClient (input : ClientInput.t)
  | deleteClient (clientId : string)
  | updateClient (clientId : string) (input : ClientInput.t).

Definition answer (m : method) : Type :=
  match m with
  | getClientById _ | getClientByLogin _ | createClient _
  | updateClient _ _ => Settled Client.t
  | deleteClient _ => Settled unit
  end.

#[global] Instance IClientRepository_eq_dec : EqDecision method.
Proof. solve_decision. Defined.
End IClientRepository.

(** [IPasswordRepository]: the two methods the code below calls.  The
    repository class itself is not among the sources. *)
Module IPasswordRepository.
Inductive method : Type :=
  | getPasswordsByClientId (clientId : string)
  | deletePasswordsForClientId (clientId : string).

Definition answer (m : method) : Type :=
  match m with
  | getPasswordsByClientId _ => Settled (list Password.t)
  | deletePasswordsForClientId _ => Settled unit
  end.

#[global] Instance IPasswordRepository_eq_dec : EqDecision method.
Proof. solve_decision. Defined.
End IPasswordRepository.

(** Every interaction of the code with something outside itself.  The
    store and the repositories answer with a promise, which resolves or
    rejects; the logger and the crypto provider are synchronous, and a
    call of theirs returns or throws. *)
Inductive Call : Type :=
  | DynamoDB (m : IDynamoDBClient.method)
  | Logger (m : ILogger.method)
  | DateNow                          (* new Date().toISOString() *)
  | Uuid                             (* uuid() *)
  | CryptoCall (m : Crypto.method)
  | ClientRepo (m : IClientRepository.method)
  | PasswordRepo (m : IPasswordRepository.method).

Definition Answer (c : Call) : Type :=
  match c with
  | DynamoDB m => IDynamoDBClient.answer m
  | Logger _ => Completion unit
  | DateNow | Uuid => string
  | CryptoCall _ => Completion string
  | ClientRepo m => IClientRepository.answer m
  | PasswordRepo m => IPasswordRepository.answer m
  end.

#[global] Instance Call_eq_dec : EqDecision Call.
Proof. solve_decision. Defined.

(** ** Programs

    A program either returns, throws, or makes a call and goes on with the
    answer. *)
Inductive Prog (A : Type) : Type :=
  | Ret (a : A)
  | Throw (e : Thrown)
  | Vis (c : Call) (k : Answer c -> Prog A).
Arguments Ret {A} a.
Arguments Throw {A} e.
Arguments Vis {A} c k.

Fixpoint bind {A B : Type} (p : Prog A) (f : A -> Prog B) : Prog B :=
  match p with
  | Ret a => f a
  | Throw e => Throw e
  | Vis c k => Vis c (fun x => bind (k x) f)
  end.

#[global] Instance Prog_ret : MRet Prog := @Ret.
#[global] Instance Prog_bind : MBind Prog := fun A B f p => bind p f.

Definition call (c : Call) : Prog (Answer c) := Vis c Ret.

(** [try { body } catch (error) { handler }]. *)
Fixpoint tryCatch {A : Type} (body : Prog A) (handler : Thrown -> Prog A)
  : Prog A :=
  match body with
  | Ret a => Ret a
  | Throw e => handler e
  | Vis c k => Vis c (fun x => tryCatch (k x) handler)
  end.

(** [await p]: the value of a resolved promise, a throw for a rejected one. *)
Definition await {A : Type} (p : Settled A) : Prog A :=
  match p with
  | Resolved a => Ret a
  | Rejected e => Throw e
  end.

(** Calling an async function runs it and leaves a promise: nothing is
    thrown at the call, the rejection is inside the promise. *)
Fixpoint promiseOf {A : Type} (p : Prog A) : Prog (Settled A) :=
  match p with
  | Ret a => Ret (Resolved a)
  | Throw e => Ret (Rejected e)
  | Vis c k => Vis c (fun x => promiseOf (k x))
  end.

(** The body of an async function computes what its [return] statement
    hands over: a value, or a promise that is adopted as it is.  A promise
    returned from inside a [try] block is not awaited there, so its
    rejection does not reach the [catch] clause; only a throw does. *)
Definition returnValue {A : Type} (a : A) : Prog (Settled A) :=
  Ret (Resolved a).

Definition returnPromise {A : Type} (p : Prog A) : Prog (Settled A) :=
  promiseOf p.

(** [Promise.reject(e)], seen as a call that leaves a rejected promise. *)
Definition PromiseReject {A : Type} (e : PasswordManagerException.t)
  : Prog A :=
  Throw (Exception e).

Definition async {A : Type} (body : Prog (Settled A)) : Prog A :=
  r ← body; await r.

(** [await f(...)], for [f] a call that leaves a promise. *)
Definition awaiting {A : Type} (p : Prog (Settled A)) : Prog A :=
  r ← p; await r.

(** The injected collaborators, as the code names them. *)
Definition dynamoDBClient (m : IDynamoDBClient.method)
  : Prog (IDynamoDBClient.answer m) := call (DynamoDB m).
Definition logger (m : ILogger.method) : Prog unit :=
  x ← call (Logger m);
  match x with
  | Returned _ => Ret tt
  | Threw e => Throw e
  end.
Definition crypto (m : Crypto.method) : Prog string :=
  x ← call (CryptoCall m);
  match x with
  | Returned v => Ret v
  | Threw e => Throw e
  end.
Definition clientRepository (m : IClientRepository.method)
  : Prog (IClientRepository.answer m) := call (ClientRepo m).
Definition passwordRepository (m : IPasswordRepository.method)
  : Prog (IPasswordRepository.answer m) := call (PasswordRepo m).

(** ** The client repository ([client.repository.ts]) *)
Module ClientRepository.

Definition TABLE_NAME : string := "Client".

Definition tableOnly : LogContext.t :=
  {| LogContext.table := TABLE_NAME; LogContext.login := None;
     LogContext.clientId := None; LogContext.error := None |}.

(** The rejection every [catch] clause of the class ends in; the two
    getters also replace the message. *)
Definition dynamoDBDown : PasswordManagerException.t :=
  PasswordManagerException.withErrorCode DynamoDBDown
    PasswordManagerException.serviceUnavailable.

Definition temporarilyUnavailable : PasswordManagerException.t :=
  PasswordManagerException.withErrorCode DynamoDBDown
    (PasswordManagerException.withMessage
       "Service is temporarily unavailable."
       PasswordManagerException.serviceUnavailable).

(** The input objects the methods build before they call the store. *)
Definition getInput (clientId : string) : GetCommandInput.t :=
  {| GetCommandInput.TableName := TABLE_NAME;
     GetCommandInput.Key := {[ "clientId" := clientId ]} |}.

Definition queryInput (login : string) : QueryCommandInput.t :=
  {| QueryCommandInput.TableName := TABLE_NAME;
     QueryCommandInput.IndexName := "LoginIndex";
     QueryCommandInput.KeyConditionExpression := "login = :login";
     QueryCommandInput.ExpressionAttributeValues := {[ ":login" := login ]} |}.

Definition deleteInput (clientId : string) : DeleteCommandInput.t :=
  {| DeleteCommandInput.TableName := TABLE_NAME;
     DeleteCommandInput.Key := {[ "clientId" := clientId ]} |}.

(** The two 404 rejections, with their template-string messages. *)
Definition noClientWithId (clientId : string) : PasswordManagerException.t :=
  PasswordManagerException.withErrorCode ClientNotFound
    (PasswordManagerException.withMessage
       ("No client exists with ID '" ++ clientId ++ "'")
       PasswordManagerException.notFound).

Definition noClientWithLogin (login : string) : PasswordManagerException.t :=
  PasswordManagerException.withErrorCode ClientNotFound
    (PasswordManagerException.withMessage
       ("No client exists with login '" ++ login ++ "'")
       PasswordManagerException.notFound).

Definition getClientById (clientId : string) : Prog Client.t :=
  async (tryCatch
    (let input := getInput clientId in
     result ← awaiting (dynamoDBClient (IDynamoDBClient.get TABLE_NAME input));
     match GetCommandOutput.Item result with
     | None =>
         _ ← logger (ILogger.warn "Couldn't find the client by ID" tableOnly);
         returnPromise (PromiseReject (noClientWithId clientId))
     | Some item =>
         _ ← logger (ILogger.info "Found client by ID" tableOnly);
         returnValue item
     end)
    (fun error =>
       _ ← logger (ILogger.error "Failed to find the client by ID"
              {| LogContext.table := TABLE_NAME; LogContext.login := None;
                 LogContext.clientId := None;
                 LogContext.error := Some error |});
       returnPromise (PromiseReject temporarilyUnavailable))).

Definition getClientByLogin (login : string) : Prog Client.t :=
  async (tryCatch
    (let input := queryInput login in
     result ← awaiting (dynamoDBClient (IDynamoDBClient.query TABLE_NAME input));
     let byLogin :=
       {| LogContext.table := TABLE_NAME; LogContext.login := Some login;
          LogContext.clientId := None; LogContext.error := None |} in
     match QueryCommandOutput.Items result with
     | None | Some [] =>
         _ ← logger (ILogger.info "Client not found by login" byLogin);
         returnPromise (PromiseReject (noClientWithLogin login))
     | Some (first :: _) =>
         _ ← logger (ILogger.info
                "Successfully found the client with the provided login"
                byLogin);
         returnValue first
     end)
    (fun error =>
       _ ← logger (ILogger.error "Failed to find the client by login"
              {| LogContext.table := TABLE_NAME;
                 LogContext.login := Some login;
                 LogContext.clientId := None;
                 LogContext.error := Some error |});
       returnPromise (PromiseReject temporarilyUnavailable))).

Definition createClient (input : ClientInput.t) : Prog Client.t :=
  async (tryCatch
    (now ← call DateNow;
     id ← call Uuid;
     let entry :=
       {| Client.clientId := id;
          Client.login := ClientInput.login input;
          Client.password := ClientInput.password input;
          Client.metadata :=
            {| Metadata.createdDate := now; Metadata.updatedDate := now |}
       |} in
     _ ← awaiting (dynamoDBClient (IDynamoDBClient.save TABLE_NAME entry));
     _ ← logger (ILogger.info "Successfully created a new client" tableOnly);
     returnValue entry)
    (fun error =>
       _ ← logger (ILogger.error "Failed to create a new client"
              {| LogContext.table := TABLE_NAME; LogContext.login := None;
                 LogContext.clientId := None;
                 LogContext.error := Some error |});
       returnPromise (PromiseReject dynamoDBDown))).

Definition deleteClient (clientId : string) : Prog unit :=
  async (tryCatch
    (let input := deleteInput clientId in
     _ ← awaiting (dynamoDBClient (IDynamoDBClient.delete TABLE_NAME input));
     _ ← logger (ILogger.info "Successfully deleted client"
            {| LogContext.table := TABLE_NAME; LogContext.login := None;
               LogContext.clientId := Some clientId;
               LogContext.error := None |});
     returnValue tt)
    (fun error =>
       _ ← logger (ILogger.error "Failed to delete client"
              {| LogContext.table := TABLE_NAME; LogContext.login := None;
                 LogContext.clientId := Some clientId;
                 LogContext.error := Some error |});
       returnPromise (PromiseReject dynamoDBDown))).

(** The command [updateClient] builds, for the timestamp read from the
    clock while the object literal is evaluated. *)
Definition updateCommand (clientId : string) (input : ClientInput.t)
    (now : string) : UpdateCommandInput.t :=
  {| UpdateCommandInput.TableName := TABLE_NAME;
     UpdateCommandInput.Key := {[ "clientId" := clientId ]};
     UpdateCommandInput.UpdateExpression :=
       "set #login = :login, #password = :password, metadata.#updatedDate = :updatedDate";
     UpdateCommandInput.ExpressionAttributeNames :=
       {[ "#login" := "login";
          "#password" := "password";
          "#updatedDate" := "updatedDate" ]};
     UpdateCommandInput.ExpressionAttributeValues :=
       {[ ":login" := ClientInput.login input;
          ":password" := ClientInput.password input;
          ":updatedDate" := now ]};
     UpdateCommandInput.ConditionExpression :=
       "attribute_exists(clientId)" |}.

Definition updateClient (clientId : string) (input : ClientInput.t)
  : Prog Client.t :=
  async (tryCatch
    (now ← call DateNow;
     let entry := updateCommand clientId input now in
     _ ← awaiting (dynamoDBClient (IDynamoDBClient.update TABLE_NAME entry));
     _ ← logger (ILogger.info "Successfully updated the client"
            {| LogContext.table := TABLE_NAME; LogContext.login := None;
               LogContext.clientId := Some clientId;
               LogContext.error := None |});
     returnPromise (getClientById clientId))
    (fun error =>
       _ ← logger (ILogger.error "Failed to update client"
              {| LogContext.table := TABLE_NAME; LogContext.login := None;
                 LogContext.clientId := Some clientId;
                 LogContext.error := Some error |});
       returnPromise (PromiseReject dynamoDBDown))).

End ClientRepository.

(** ** The get-passwords controller ([get-passwords.controller.ts]) *)

Module GetPasswordsResponse.
Record t : Type := make {
  statusCode : Z;
  message : string;
  passwords : list Password.t
}.
End GetPasswordsResponse.

(** [passwords.forEach(callback)] for a callback that works on the entry it
    is handed: the entries are visited in order, and the list afterwards
    holds what the callback left of each.  The entries are distinct
    objects, as a store query produces them. *)
Fixpoint forEach (callback : Password.t -> Prog Password.t)
    (passwords : list Password.t) : Prog (list Password.t) :=
  match passwords with
  | [] => Ret []
  | passwordEntry :: rest =>
      passwordEntry' ← callback passwordEntry;
      rest' ← forEach callback rest;
      Ret (passwordEntry' :: rest')
  end.

(** [passwordEntry.value = this.crypto.decrypt(passwordEntry.value)]. *)
Definition decryptEntry (passwordEntry : Password.t) : Prog Password.t :=
  v ← crypto (Crypto.decrypt (Password.value passwordEntry));
  Ret (Password.setValue v passwordEntry).

Module GetPasswordsController.
Definition handler (clientId : string) : Prog GetPasswordsResponse.t :=
  passwords ← awaiting (passwordRepository
                (IPasswordRepository.getPasswordsByClientId clientId));
  passwords ← forEach decryptEntry passwords;
  Ret {| GetPasswordsResponse.statusCode := HttpStatus.OK;
         GetPasswordsResponse.message := "Ok";
         GetPasswordsResponse.passwords := passwords |}.
End GetPasswordsController.

(** ** The loop on the objects themselves *)

(** [forEach] hands the callback the objects of the array, not copies, and
    the assignment [passwordEntry.value = ...] changes the object behind
    the reference.  Here the array is a list of references into a heap of
    password objects and [f] is what the callback does to one object. *)
Module InPlace.

Fixpoint forEach (f : Password.t -> Password.t) (refs : list nat)
    (heap : gmap nat Password.t) : gmap nat Password.t :=
  match refs with
  | [] => heap
  | ref :: rest => forEach f rest (alter f ref heap)
  end.

(** The objects an array of references stands for. *)
Definition deref (heap : gmap nat Password.t) (refs : list nat)
  : list (option Password.t) :=
  map (fun ref => heap !! ref) refs.

(** The loop of the handler on such an array: each pass reads the [value]
    its object has by then, hands it to [decrypt] and assigns what comes
    back.  (An array holds no reference to nothing.) *)
Fixpoint decryptEach (refs : list nat) (heap : gmap nat Password.t)
  : Prog (gmap nat Password.t) :=
  match refs with
  | [] => Ret heap
  | ref :: rest =>
      match heap !! ref with
      | Some passwordEntry =>
          v ← crypto (Crypto.decrypt (Password.value passwordEntry));
          decryptEach rest (<[ ref := Password.setValue v passwordEntry ]> heap)
      | None => decryptEach rest heap
      end
  end.

End InPlace.

(** ** The services

    [client.service.ts] and [password.service.ts] are not among the
    sources; their unit tests and the controller above are. *)

(** Modelled from the spec: [{passwords}] and [{client}], what the two
    services resolve with (sections 4.3 and 4.4). *)
Module GetPasswordsResult.
Record t : Type := make { passwords : list Password.t }.
End GetPasswordsResult.

Module CreateClientResponse.
Record t : Type := make { client : ClientResponse.t }.
End CreateClientResponse.

Module PasswordService.
(** Modelled from the spec: [PasswordService.getPasswords], whose source
    file is missing.  Section 4.3: it "delegates to the repository, then
    decrypts the [value] field of every returned record in place before
    returning"; a failure of the repository propagates.  The result is
    [{passwords}]. *)
Definition getPasswords (clientId : string) : Prog GetPasswordsResult.t :=
  passwords ← awaiting (passwordRepository
                (IPasswordRepository.getPasswordsByClientId clientId));
  passwords ← forEach decryptEntry passwords;
  Ret {| GetPasswordsResult.passwords := passwords |}.
End PasswordService.

Module ClientService.
(** [{clientId, login, metadata}] of a client record. *)
Definition toResponse (client : Client.t) : ClientResponse.t :=
  {| ClientResponse.clientId := Client.clientId client;
     ClientResponse.login := Client.login client;
     ClientResponse.metadata := Client.metadata client |}.

(** Modelled from the spec: the rejection of [createClient] for a login
    in use.  Section 4.4 calls it "a BadRequest-class error carrying error
    code login already exists", section 7 gives [LoginAlreadyExists] the
    status 400, and the unit test reads the message back. *)
Definition loginAlreadyExists : PasswordManagerException.t :=
  {| PasswordManagerException.statusCode := HttpStatus.BAD_REQUEST;
     PasswordManagerException.message := "Login is already in use";
     PasswordManagerException.errorCode := LoginAlreadyExists |}.

(** The lookup "fails with NotFound": a domain exception of status 404,
    whichever of the 404 error codes it carries. *)
Definition isNotFound (e : Thrown) : bool :=
  match e with
  | Exception e =>
      bool_decide (PasswordManagerException.statusCode e = HttpStatus.NOT_FOUND)
  | JsError _ _ => false
  end.

(** Modelled from the spec: [ClientService.createClient], whose source
    file is missing.  Section 4.4: it "looks up
    [getClientByLogin(input.login)]; if a record is found, fails with a
    BadRequest-class error [...] (no storage mutation attempted); if the
    lookup fails with NotFound, proceeds: encrypts [input.password],
    calls repository create, and returns a response view that excludes
    the password field entirely [...]; any other repository/lookup
    failure (e.g. ServiceUnavailable) propagates un-transformed". *)
Definition createClient (input : ClientInput.t)
  : Prog CreateClientResponse.t :=
  found ← clientRepository
            (IClientRepository.getClientByLogin (ClientInput.login input));
  match found with
  | Resolved _ => Throw (Exception loginAlreadyExists)
  | Rejected e =>
      if isNotFound e then
        encrypted ← crypto (Crypto.encrypt (ClientInput.password input));
        client ← awaiting (clientRepository (IClientRepository.createClient
                    {| ClientInput.login := ClientInput.login input;
                       ClientInput.password := encrypted |}));
        Ret {| CreateClientResponse.client := toResponse client |}
      else Throw e
  end.

(** Modelled from the spec: [ClientService.deleteClient], whose source
    file is missing.  Section 4.4: it "deletes all of the client's
    Passwords via the Password Repository's bulk-by-owner delete, then
    deletes the Client record.  Both calls are awaited; either failing
    surfaces as a failure of the whole operation".  Section 3 has it that "both steps must be attempted and
    failures in either step are surfaced", and section 8 that each call is
    attempted once "regardless of whether either collaborator call would
    itself fail": the second call is made whatever became of the first,
    and then the failure of either is the failure of the operation.  The
    specification does not say which failure surfaces when both calls
    fail; here it is that of the first. *)
Definition deleteClient (clientId : string) : Prog unit :=
  passwords ← passwordRepository
                (IPasswordRepository.deletePasswordsForClientId clientId);
  client ← clientRepository (IClientRepository.deleteClient clientId);
  _ ← await passwords;
  _ ← await client;
  Ret tt.
End ClientService.

(** ** Running a program against its collaborators *)

(** An environment answers every call and may change with it: a store, a
    clock, a set of mocks.  In an [AnyEnv] a log call may throw like any
    other synchronous call. *)
Definition AnyEnv (W : Type) : Type := forall c : Call, W -> Answer c * W.

(** The loggers of the unit tests and of the running service record the
    message and return.  [Env] is the environments with such a logger:
    a log call has nothing to answer, and the program is told that it
    returned. *)
Definition Reply (c : Call) : Type :=
  match c with
  | Logger _ => unit
  | c => Answer c
  end.

Definition Env (W : Type) : Type := forall c : Call, W -> Reply c * W.

Definition asAnswer (c : Call) : Reply c -> Answer c :=
  match c as c' return Reply c' -> Answer c' with
  | Logger _ => fun _ => Returned tt
  | _ => fun x => x
  end.

Definition anyEnv {W : Type} (env : Env W) : AnyEnv W :=
  fun c w => let (x, w') := env c w in (asAnswer c x, w').

(** One call of a run with the answer it got. *)
Record Event : Type := Ev { callOf : Call; answerOf : Answer callOf }.

Record Run (W A : Type) : Type := mkRun {
  outcome : Settled A;
  world : W;
  events : list Event
}.
Arguments mkRun {W A} outcome world events.
Arguments outcome {W A} r.
Arguments world {W A} r.
Arguments events {W A} r.

Definition after {W A : Type} (ev : Event) (r : Run W A) : Run W A :=
  mkRun (outcome r) (world r) (ev :: events r).

Fixpoint runAny {W A : Type} (env : AnyEnv W) (p : Prog A) (w : W)
  : Run W A :=
  match p with
  | Ret a => mkRun (Resolved a) w []
  | Throw e => mkRun (Rejected e) w []
  | Vis c k =>
      let (x, w') := env c w in
      after (Ev c x) (runAny env (k x) w')
  end.

(** The same with a logger that returns. *)
Fixpoint run {W A : Type} (env : Env W) (p : Prog A) (w : W) : Run W A :=
  match p with
  | Ret a => mkRun (Resolved a) w []
  | Throw e => mkRun (Rejected e) w []
  | Vis c k =>
      let (x, w') := env c w in
      after (Ev c (asAnswer c x)) (run env (k (asAnswer c x)) w')
  end.

(** The calls of a run, in order, and how many of them satisfy a test:
    [toBeCalledTimes] of the unit tests. *)
Definition calls {W A : Type} (r : Run W A) : list Call :=
  map callOf (events r).

Definition calledTimes {W A : Type} (which : Call -> bool) (r : Run W A) : nat :=
  length (List.filter which (calls r)).

(** [answered c x r]: in the run [r] the call [c] was made and got [x]. *)
Definition answered {W A : Type} (c : Call) (x : Answer c) (r : Run W A) : Prop :=
  In (Ev c x) (events r).

(** ** The service on top of the repository of this code base *)

(** What the injected [ClientRepository] does when one of its methods is
    called: the method runs and leaves its promise. *)
Definition clientRepositoryImpl (m : IClientRepository.method)
  : Prog (IClientRepository.answer m) :=
  match m with
  | IClientRepository.getClientById clientId =>
      promiseOf (ClientRepository.getClientById clientId)
  | IClientRepository.getClientByLogin login =>
      promiseOf (ClientRepository.getClientByLogin login)
  | IClientRepository.createClient input =>
      promiseOf (ClientRepository.createClient input)
  | IClientRepository.deleteClient clientId =>
      promiseOf (ClientRepository.deleteClient clientId)
  | IClientRepository.updateClient clientId input =>
      promiseOf (ClientRepository.updateClient clientId input)
  end.

Definition wire (c : Call) : Prog (Answer c) :=
  match c with
  | ClientRepo m => clientRepositoryImpl m
  | c => call c
  end.

(** [withClientRepository p]: the program [p] with every call to the client
    repository replaced by the repository's own code, so that what is left
    are calls to the store, the logger, the clock and the crypto provider. *)
Fixpoint withClientRepository {A : Type} (p : Prog A) : Prog A :=
  match p with
  | Ret a => Ret a
  | Throw e => Throw e
  | Vis c k => bind (wire c) (fun x => withClientRepository (k x))
  end.

(** Tests on calls, for counting. *)
Definition isEncrypt (c : Call) : bool :=
  match c with CryptoCall (Crypto.encrypt _) => true | _ => false end.
Definition isDecrypt (c : Call) : bool :=
  match c with CryptoCall (Crypto.decrypt _) => true | _ => false end.
Definition isCrypto (c : Call) : bool :=
  match c with CryptoCall _ => true | _ => false end.
Definition isRepositoryCreate (c : Call) : bool :=
  match c with
  | ClientRepo (IClientRepository.createClient _) => true
  | _ => false
  end.
Definition isRepositoryDeleteClient (c : Call) : bool :=
  match c with
  | ClientRepo (IClientRepository.deleteClient _) => true
  | _ => false
  end.
Definition isBulkDelete (c : Call) : bool :=
  match c with
  | PasswordRepo (IPasswordRepository.deletePasswordsForClientId _) => true
  | _ => false
  end.
Definition isStoreWrite (c : Call) : bool :=
  match c with
  | DynamoDB (IDynamoDBClient.save _ _)
  | DynamoDB (IDynamoDBClient.update _ _)
  | DynamoDB (IDynamoDBClient.delete _ _) => true
  | _ => false
  end.

(** A crypto provider that computes the functions [encrypt] and [decrypt],
    every call returning: section 6 has it synchronous and deterministic. *)
Definition cryptoComputes {W : Type} (env : Env W)
    (encrypt decrypt : string -> string) : Prop :=
  forall (w : W) (s : string),
    (env (CryptoCall (Crypto.encrypt s)) w).1 = Returned (encrypt s) /\
    (env (CryptoCall (Crypto.decrypt s)) w).1 = Returned (decrypt s).

(** ** An in-memory storage gateway *)

(** The fragment of the store's expression language the repository writes:
    [set path = :value, ...] with [#name] placeholders in the paths,
    [attribute_exists(name)], and [name = :value] as a key condition. *)
Module Expression.

Fixpoint split (sep : ascii) (s : string) : list string :=
  match s with
  | EmptyString => [EmptyString]
  | String c rest =>
      if Ascii.eqb c sep then EmptyString :: split sep rest
      else match split sep rest with
           | [] => [String c EmptyString]
           | word :: words => String c word :: words
           end
  end.

Fixpoint dropSpaces (s : string) : string :=
  match s with
  | String c rest => if Ascii.eqb c " " then dropSpaces rest else s
  | EmptyString => EmptyString
  end.

Definition trim (s : string) : string :=
  String.rev (dropSpaces (String.rev (dropSpaces s))).

Fixpoint stripPrefix (prefix s : string) : option string :=
  match prefix, s with
  | EmptyString, _ => Some s
  | String a prefix', String b s' =>
      if Ascii.eqb a b then stripPrefix prefix' s' else None
  | String _ _, EmptyString => None
  end.

Definition stripSuffix (suffix s : string) : option string :=
  String.rev <$> stripPrefix (String.rev suffix) (String.rev s).

(** [path = :value], the path cut at its dots. *)
Definition clause (c : string) : option (list string * string) :=
  match split "=" c with
  | [lhs; rhs] => Some (split "." (trim lhs), trim rhs)
  | _ => None
  end.

Definition setClauses (e : string) : option (list (list string * string)) :=
  rest ← stripPrefix "set " e;
  mapM clause (split "," rest).

Definition attributeExists (e : string) : option string :=
  rest ← stripPrefix "attribute_exists(" e;
  stripSuffix ")" rest.

(** A path segment is an attribute name, or a [#placeholder] for one. *)
Definition resolveName (names : gmap string string) (segment : string)
  : option string :=
  match segment with
  | String "#" _ => names !! segment
  | _ => Some segment
  end.

End Expression.

Module InMemory.

(** The Storage Gateway is an external collaborator whose code is not
    among the sources; section 6 of the specification lists its operations.
    The gateway below holds the one table [Client], keyed by [clientId],
    with the index [LoginIndex] on [login]. *)

(** The errors of the store. *)
Definition validationException : Thrown :=
  JsError "ValidationException" "Invalid request".
Definition resourceNotFoundException : Thrown :=
  JsError "ResourceNotFoundException" "Requested resource not found".
Definition conditionalCheckFailedException : Thrown :=
  JsError "ConditionalCheckFailedException" "The conditional request failed".

(** [set path = value] on a client record: the key attribute cannot be
    rewritten, and a record has no other attributes than these. *)
Definition assign (path : list string) (v : string) (item : Client.t)
  : option Client.t :=
  if decide (path = ["login"]) then
    Some {| Client.clientId := Client.clientId item;
            Client.login := v;
            Client.password := Client.password item;
            Client.metadata := Client.metadata item |}
  else if decide (path = ["password"]) then
    Some {| Client.clientId := Client.clientId item;
            Client.login := Client.login item;
            Client.password := v;
            Client.metadata := Client.metadata item |}
  else if decide (path = ["metadata"; "createdDate"]) then
    Some {| Client.clientId := Client.clientId item;
            Client.login := Client.login item;
            Client.password := Client.password item;
            Client.metadata :=
              {| Metadata.createdDate := v;
                 Metadata.updatedDate :=
                   Metadata.updatedDate (Client.metadata item) |} |}
  else if decide (path = ["metadata"; "updatedDate"]) then
    Some {| Client.clientId := Client.clientId item;
            Client.login := Client.login item;
            Client.password := Client.password item;
            Client.metadata :=
              {| Metadata.createdDate :=
                   Metadata.createdDate (Client.metadata item);
                 Metadata.updatedDate := v |} |}
  else None.

Definition applyClause (names values : gmap string string)
    (item : option Client.t) (c : list string * string) : option Client.t :=
  item ← item;
  path ← mapM (Expression.resolveName names) c.1;
  v ← values !! c.2;
  assign path v item.

Definition applyUpdate (input : UpdateCommandInput.t) (item : Client.t)
  : option Client.t :=
  clauses ← Expression.setClauses (UpdateCommandInput.UpdateExpression input);
  foldl (applyClause (UpdateCommandInput.ExpressionAttributeNames input)
                     (UpdateCommandInput.ExpressionAttributeValues input))
        (Some item) clauses.

(** The attribute paths an update command assigns to. *)
Definition assignedPaths (input : UpdateCommandInput.t)
  : option (list (list string)) :=
  clauses ← Expression.setClauses (UpdateCommandInput.UpdateExpression input);
  mapM (fun c : list string * string =>
          mapM (Expression.resolveName
                  (UpdateCommandInput.ExpressionAttributeNames input)) c.1)
       clauses.

Definition attributes : list string :=
  ["clientId"; "login"; "password"; "metadata"].

(** Modelled from the spec: [update(table, {Key, UpdateExpression,
    ExpressionAttributeNames, ExpressionAttributeValues,
    ConditionExpression}) -> ack] of the Storage Gateway, which "fails when
    ConditionExpression is not satisfied" (section 6); section 5 has the
    condition keep an update from bringing a deleted record back. *)
Definition update (input : UpdateCommandInput.t)
    (table : gmap string Client.t) : Settled unit * gmap string Client.t :=
  match UpdateCommandInput.Key input !! "clientId",
        Expression.attributeExists
          (UpdateCommandInput.ConditionExpression input) with
  | Some id, Some attribute =>
      match table !! id with
      | Some item =>
          if bool_decide (attribute ∈ attributes) then
            match applyUpdate input item with
            | Some item' => (Resolved tt, <[ id := item' ]> table)
            | None => (Rejected validationException, table)
            end
          else (Rejected conditionalCheckFailedException, table)
      | None => (Rejected conditionalCheckFailedException, table)
      end
  | _, _ => (Rejected validationException, table)
  end.

(** Modelled from the spec: [get(table, {Key}) -> {Item?}] of the Storage
    Gateway (section 6). *)
Definition get (input : GetCommandInput.t) (table : gmap string Client.t)
  : Settled GetCommandOutput.t * gmap string Client.t :=
  match GetCommandInput.Key input !! "clientId" with
  | Some id => (Resolved {| GetCommandOutput.Item := table !! id |}, table)
  | None => (Rejected validationException, table)
  end.

(** Modelled from the spec: [query(table, {IndexName,
    KeyConditionExpression, ExpressionAttributeValues}) -> {Items?}] of the
    Storage Gateway (section 6), on the index keyed by [login]. *)
Definition query (input : QueryCommandInput.t)
    (table : gmap string Client.t)
  : Settled QueryCommandOutput.t * gmap string Client.t :=
  match Expression.clause (QueryCommandInput.KeyConditionExpression input) with
  | Some (["login"], placeholder) =>
      match QueryCommandInput.ExpressionAttributeValues input !! placeholder with
      | Some login =>
          if bool_decide (QueryCommandInput.IndexName input = "LoginIndex")
          then (Resolved {| QueryCommandOutput.Items := Some
                  (filter (fun item => Client.login item = login)
                          (map_to_list table).*2) |}, table)
          else (Rejected validationException, table)
      | None => (Rejected validationException, table)
      end
  | _ => (Rejected validationException, table)
  end.

(** Modelled from the spec: [save(table, item) -> ack] of the Storage
    Gateway (section 6). *)
Definition save (item : Client.t) (table : gmap string Client.t)
  : Settled unit * gmap string Client.t :=
  (Resolved tt, <[ Client.clientId item := item ]> table).

(** Modelled from the spec: [delete(table, {Key}) -> ack] of the Storage
    Gateway (section 6); section 4.1 has it return normally when the key
    did not exist. *)
Definition delete (input : DeleteCommandInput.t)
    (table : gmap string Client.t) : Settled unit * gmap string Client.t :=
  match DeleteCommandInput.Key input !! "clientId" with
  | Some id => (Resolved tt, base.delete id table)
  | None => (Rejected validationException, table)
  end.

Definition onTable (name : string) {A : Type}
    (operation : gmap string Client.t -> Settled A * gmap string Client.t)
    (table : gmap string Client.t) : Settled A * gmap string Client.t :=
  if bool_decide (name = "Client") then operation table
  else (Rejected resourceNotFoundException, table).

Definition dynamoDB (m : IDynamoDBClient.method)
  : gmap string Client.t -> IDynamoDBClient.answer m * gmap string Client.t :=
  match m with
  | IDynamoDBClient.get name input => onTable name (get input)
  | IDynamoDBClient.query name input => onTable name (query input)
  | IDynamoDBClient.save name item => onTable name (save item)
  | IDynamoDBClient.update name input => onTable name (update input)
  | IDynamoDBClient.delete name input => onTable name (delete input)
  end.

(** The store answers the gateway calls from its table; every other call
    goes to [others]. *)
Definition env {W : Type} (others : Env W) : Env (gmap string Client.t * W) :=
  fun c state =>
    match c return Reply c * (gmap string Client.t * W) with
    | DynamoDB m =>
        let (x, table') := dynamoDB m state.1 in (x, (table', state.2))
    | c => let (x, w') := others c state.2 in (x, (state.1, w'))
    end.

End InMemory.

(** ** Mocks *)

(** The collaborators as the unit tests set them up: each answers from a
    fixed function, the clock reads ['now'] and [uuid()] gives ['uuid']. *)
Module Mock.
Record t : Type := make {
  dynamoDB : forall m : IDynamoDBClient.method, IDynamoDBClient.answer m;
  clientRepo : forall m : IClientRepository.method, IClientRepository.answer m;
  passwordRepo :
    forall m : IPasswordRepository.method, IPasswordRepository.answer m;
  encrypt : string -> string;
  decrypt : string -> string
}.

Definition env (mock : t) : Env unit :=
  fun c w =>
    (match c return Reply c with
     | DynamoDB m => dynamoDB mock m
     | Logger _ => tt
     | DateNow => "now"
     | Uuid => "uuid"
     | CryptoCall (Crypto.encrypt s) => Returned (encrypt mock s)
     | CryptoCall (Crypto.decrypt s) => Returned (decrypt mock s)
     | ClientRepo m => clientRepo mock m
     | PasswordRepo m => passwordRepo mock m
     end, w).

Definition somethingBroke : Thrown := JsError "Error" "Something broke".

(** A collaborator none of whose methods was given an answer. *)
Definition dynamoDBFails (m : IDynamoDBClient.method)
  : IDynamoDBClient.answer m :=
  match m with
  | IDynamoDBClient.get _ _ => Rejected somethingBroke
  | IDynamoDBClient.query _ _ => Rejected somethingBroke
  | IDynamoDBClient.save _ _ => Rejected somethingBroke
  | IDynamoDBClient.update _ _ => Rejected somethingBroke
  | IDynamoDBClient.delete _ _ => Rejected somethingBroke
  end.

Definition clientRepoFails (m : IClientRepository.method)
  : IClientRepository.answer m :=
  match m with
  | IClientRepository.getClientById _ => Rejected somethingBroke
  | IClientRepository.getClientByLogin _ => Rejected somethingBroke
  | IClientRepository.createClient _ => Rejected somethingBroke
  | IClientRepository.deleteClient _ => Rejected somethingBroke
  | IClientRepository.updateClient _ _ => Rejected somethingBroke
  end.

Definition passwordRepoFails (m : IPasswordRepository.method)
  : IPasswordRepository.answer m :=
  match m with
  | IPasswordRepository.getPasswordsByClientId _ => Rejected somethingBroke
  | IPasswordRepository.deletePasswordsForClientId _ => Rejected somethingBroke
  end.
End Mock.

(** ** Fixtures *)

(** The records and mock set-ups of the unit tests. *)
Module Fixtures.

Definition client : Client.t :=
  {| Client.clientId := "clientId";
     Client.login := "login";
     Client.password := "password";
     Client.metadata :=
       {| Metadata.createdDate := "now"; Metadata.updatedDate := "now" |} |}.

Definition password : Password.t :=
  {| Password.passwordId := "passwordId";
     Password.name := "name";
     Password.website := None;
     Password.login := "login";
     Password.value := "value";
     Password.clientId := "clientId";
     Password.metadata :=
       {| Metadata.createdDate := "now"; Metadata.updatedDate := "now" |} |}.

Definition input : ClientInput.t :=
  {| ClientInput.login := "login"; ClientInput.password := "password" |}.

Definition encrypt (s : string) : string := "encrypted(" ++ s ++ ")".
Definition decrypt (s : string) : string := "decrypted(" ++ s ++ ")".

(** No method was given an answer: every promise rejects. *)
Definition unset : Mock.t :=
  {| Mock.dynamoDB := Mock.dynamoDBFails;
     Mock.clientRepo := Mock.clientRepoFails;
     Mock.passwordRepo := Mock.passwordRepoFails;
     Mock.encrypt := encrypt;
     Mock.decrypt := decrypt |}.

(** Every method of the store resolves; [get] and [query] find the
    client. *)
Definition found : Mock.t :=
  {| Mock.dynamoDB := fun m =>
       match m with
       | IDynamoDBClient.get _ _ =>
           Resolved {| GetCommandOutput.Item := Some client |}
       | IDynamoDBClient.query _ _ =>
           Resolved {| QueryCommandOutput.Items := Some [client] |}
       | IDynamoDBClient.save _ _ => Resolved tt
       | IDynamoDBClient.update _ _ => Resolved tt
       | IDynamoDBClient.delete _ _ => Resolved tt
       end;
     Mock.clientRepo := Mock.clientRepoFails;
     Mock.passwordRepo := Mock.passwordRepoFails;
     Mock.encrypt := encrypt;
     Mock.decrypt := decrypt |}.

(** [update] resolves and the [get] that follows finds no item. *)
Definition vanished : Mock.t :=
  {| Mock.dynamoDB := fun m =>
       match m with
       | IDynamoDBClient.update _ _ => Resolved tt
       | IDynamoDBClient.get _ _ =>
           Resolved {| GetCommandOutput.Item := None |}
       | m => Mock.dynamoDBFails m
       end;
     Mock.clientRepo := Mock.clientRepoFails;
     Mock.passwordRepo := Mock.passwordRepoFails;
     Mock.encrypt := encrypt;
     Mock.decrypt := decrypt |}.

(** [getClientByLogin] resolves with a client. *)
Definition loginTaken : Mock.t :=
  {| Mock.dynamoDB := Mock.dynamoDBFails;
     Mock.clientRepo := fun m =>
       match m with
       | IClientRepository.getClientByLogin _ => Resolved client
       | m => Mock.clientRepoFails m
       end;
     Mock.passwordRepo := Mock.passwordRepoFails;
     Mock.encrypt := encrypt;
     Mock.decrypt := decrypt |}.

(** [getPasswordsByClientId] resolves with one password. *)
Definition onePassword : Mock.t :=
  {| Mock.dynamoDB := Mock.dynamoDBFails;
     Mock.clientRepo := Mock.clientRepoFails;
     Mock.passwordRepo := fun m =>
       match m with
       | IPasswordRepository.getPasswordsByClientId _ => Resolved [password]
       | m => Mock.passwordRepoFails m
       end;
     Mock.encrypt := encrypt;
     Mock.decrypt := decrypt |}.

(** The password repository finds no passwords for the client; the client
    repository deletes. *)
Definition noPasswords : Mock.t :=
  {| Mock.dynamoDB := Mock.dynamoDBFails;
     Mock.clientRepo := fun m =>
       match m with
       | IClientRepository.deleteClient _ => Resolved tt
       | m => Mock.clientRepoFails m
       end;
     Mock.passwordRepo := fun m =>
       match m with
       | IPasswordRepository.getPasswordsByClientId _ =>
           Rejected (Exception PasswordManagerException.notFound)
       | IPasswordRepository.deletePasswordsForClientId _ =>
           Rejected (Exception PasswordManagerException.notFound)
       end;
     Mock.encrypt := encrypt;
     Mock.decrypt := decrypt |}.

(** Both deletes resolve. *)
Definition deletesResolve : Mock.t :=
  {| Mock.dynamoDB := Mock.dynamoDBFails;
     Mock.clientRepo := fun m =>
       match m with
       | IClientRepository.deleteClient _ => Resolved tt
       | m => Mock.clientRepoFails m
       end;
     Mock.passwordRepo := fun m =>
       match m with
       | IPasswordRepository.deletePasswordsForClientId _ => Resolved tt
       | m => Mock.passwordRepoFails m
       end;
     Mock.encrypt := encrypt;
     Mock.decrypt := decrypt |}.

End Fixtures.

(** ** More tests on calls and more mock set-ups *)

Definition isStoreCall (c : Call) : bool :=
  match c with DynamoDB _ => true | _ => false end.

Definition isStoreRead (c : Call) : bool :=
  match c with
  | DynamoDB (IDynamoDBClient.get _ _)
  | DynamoDB (IDynamoDBClient.query _ _) => true
  | _ => false
  end.


Module Scenarios.

(** [update] resolves and the [get] that follows fails. *)
Definition rereadFails : Mock.t :=
  {| Mock.dynamoDB := fun m =>
       match m with
       | IDynamoDBClient.update _ _ => Resolved tt
       | m => Mock.dynamoDBFails m
       end;
     Mock.clientRepo := Mock.clientRepoFails;
     Mock.passwordRepo := Mock.passwordRepoFails;
     Mock.encrypt := Fixtures.encrypt;
     Mock.decrypt := Fixtures.decrypt |}.



End Scenarios.



(** An environment whose [uuid()] hands out the ids of a list, one per
    call, and that otherwise answers as the mocks without a set-up do. *)
Definition handingOut : Env (list string) :=
  fun c ids =>
    match c return Reply c * list string with
    | Uuid => match ids with
              | id :: rest => (id, rest)
              | [] => ("uuid", [])
              end
    | c => ((Mock.env Fixtures.unset c tt).1, ids)
    end.

(** * Properties *)

(** ** Reading a run *)

Lemma Ev_inj (c : Call) (x y : Answer c) : Ev c x = Ev c y -> x = y.
Proof.
  intros H. injection H as H.
  exact (inj_pair2_eq_dec Call (fun a b => decide (a = b)) Answer c x y H).
Qed.

Lemma Ev_call (c c' : Call) (x : Answer c) (y : Answer c') :
  Ev c x = Ev c' y -> c = c'.
Proof. intros H. exact (f_equal callOf H). Qed.

(** Where the goal or a hypothesis waits for the environment's answer to a
    call, name the answer and the next state. *)
Ltac ask :=
  let a := fresh "a" in
  match goal with
  | |- context [let (_, _) := ?e in _] => destruct e as [a ?] eqn:?
  | H : context [let (_, _) := ?e in _] |- _ => destruct e as [a ?] eqn:?
  end; cbn in *.

(** The same to the end of the run, by cases on what the synchronous
    calls and the promises come to. *)
Ltac answers :=
  repeat first
    [ ask
    | match goal with
      | a : Completion _ |- _ => destruct a as [? | ?]; cbn in *
      | a : Settled _ |- _ => destruct a as [? | ?]; cbn in *
      end ].

(** Which event of an explicit list a hypothesis [answered c x r] speaks
    of: the calls must agree, and then the answers do. *)
Ltac same_event H :=
  let E := fresh "E" in
  pose proof (Ev_call _ _ _ _ H) as E; cbn in E;
  first [ discriminate E
        | injection E; clear E; intros; subst; apply Ev_inj in H; cbn in H
        | clear E; apply Ev_inj in H; cbn in H ].

Ltac which_event H :=
  unfold answered in H; cbn in H;
  repeat lazymatch type of H with
         | _ \/ _ => destruct H as [H | H]
         | False => destruct H
         | Ev _ _ = Ev _ _ => same_event H
         end.

(** ** The combinators *)

(** A promise returned from inside a [try] block settles the async function
    as it is: the [catch] clause does not see its rejection. *)
Lemma returned_promise_passes_catch {W A : Type} (env : Env W)
    (p : Prog A) (handler : Thrown -> Prog (Settled A)) (w : W) :
  run env (async (tryCatch (returnPromise p) handler)) w = run env p w.
Proof.
  revert w. induction p as [a | e | c k IH]; intros w; try reflexivity.
  cbn. destruct (env c w) as [x w']. f_equal. apply IH.
Qed.

(** A promise awaited inside the [try] block is under the [catch] clause. *)
Lemma awaited_promise_is_caught {W A : Type} (env : Env W)
    (p : Prog A) (handler : Thrown -> Prog (Settled A)) (w : W) :
  run env (async (tryCatch (a ← awaiting (returnPromise p); returnValue a)
                           handler)) w
  = run env (async (tryCatch (a ← p; returnValue a) handler)) w.
Proof.
  revert w. induction p as [a | e | c k IH]; intros w; try reflexivity.
  cbn. destruct (env c w) as [x w']. f_equal. apply IH.
Qed.

(** ** The in-memory store on the commands of the repository *)

Lemma setClauses_updateExpression :
  Expression.setClauses
    "set #login = :login, #password = :password, metadata.#updatedDate = :updatedDate"
  = Some [ (["#login"], ":login");
           (["#password"], ":password");
           (["metadata"; "#updatedDate"], ":updatedDate") ].
Proof. reflexivity. Qed.

(** The paths the update command assigns to. *)
Lemma assignedPaths_updateCommand (clientId : string) (input : ClientInput.t)
    (now : string) :
  InMemory.assignedPaths (ClientRepository.updateCommand clientId input now)
  = Some [ ["login"]; ["password"]; ["metadata"; "updatedDate"] ].
Proof. reflexivity. Qed.

(** What the update command does to the record it is applied to. *)
Lemma applyUpdate_updateCommand (clientId : string) (input : ClientInput.t)
    (now : string) (item : Client.t) :
  InMemory.applyUpdate (ClientRepository.updateCommand clientId input now) item
  = Some {| Client.clientId := Client.clientId item;
            Client.login := ClientInput.login input;
            Client.password := ClientInput.password input;
            Client.metadata :=
              {| Metadata.createdDate :=
                   Metadata.createdDate (Client.metadata item);
                 Metadata.updatedDate := now |} |}.
Proof.
  unfold InMemory.applyUpdate, ClientRepository.updateCommand.
  cbn [UpdateCommandInput.UpdateExpression
       UpdateCommandInput.ExpressionAttributeNames
       UpdateCommandInput.ExpressionAttributeValues].
  rewrite setClauses_updateExpression.
  cbn [mbind option_bind foldl].
  unfold InMemory.applyClause.
  cbn [fst snd mbind option_bind mapM Expression.resolveName].
  repeat (first [ rewrite lookup_insert_eq
                | rewrite lookup_insert_ne by done
                | rewrite lookup_singleton_eq ];
          cbn [mbind option_bind mret option_ret]).
  reflexivity.
Qed.

(** The conditional update on a table with a record for the key, and on a
    table without one. *)
Lemma update_present (clientId : string) (input : ClientInput.t)
    (now : string) (table : gmap string Client.t) (item : Client.t) :
  table !! clientId = Some item ->
  InMemory.update (ClientRepository.updateCommand clientId input now) table
  = (Resolved tt,
     <[ clientId :=
          {| Client.clientId := Client.clientId item;
             Client.login := ClientInput.login input;
             Client.password := ClientInput.password input;
             Client.metadata :=
               {| Metadata.createdDate :=
                    Metadata.createdDate (Client.metadata item);
                  Metadata.updatedDate := now |} |} ]> table).
Proof.
  intros Hitem.
  pose proof (applyUpdate_updateCommand clientId input now item) as Happly.
  unfold InMemory.update.
  cbn [ClientRepository.updateCommand UpdateCommandInput.Key
       UpdateCommandInput.ConditionExpression] in *.
  rewrite lookup_singleton_eq, Hitem.
  change (Expression.attributeExists "attribute_exists(clientId)")
    with (Some "clientId").
  change (bool_decide ("clientId" ∈ InMemory.attributes)) with true.
  cbv iota beta. rewrite Happly. reflexivity.
Qed.

Lemma update_absent (clientId : string) (input : ClientInput.t)
    (now : string) (table : gmap string Client.t) :
  table !! clientId = None ->
  InMemory.update (ClientRepository.updateCommand clientId input now) table
  = (Rejected InMemory.conditionalCheckFailedException, table).
Proof.
  intros Hnone. unfold InMemory.update.
  cbn [ClientRepository.updateCommand UpdateCommandInput.Key
       UpdateCommandInput.ConditionExpression].
  rewrite lookup_singleton_eq, Hnone. reflexivity.
Qed.

(** ** Scenarios of the repository's unit tests *)

(** "Returns the client data" and "Rejects with a Not Found
    PasswordManagerException when the client does not exist". *)
Example test_getClientById_found :
  let r := run (Mock.env Fixtures.found)
               (ClientRepository.getClientById "id") tt in
  outcome r = Resolved Fixtures.client /\
  calls r = [DynamoDB (IDynamoDBClient.get "Client"
                         {| GetCommandInput.TableName := "Client";
                            GetCommandInput.Key := {[ "clientId" := "id" ]} |});
             Logger (ILogger.info "Found client by ID"
                       ClientRepository.tableOnly)].
Proof. split; reflexivity. Qed.

Example test_getClientById_not_found :
  let r := run (Mock.env Fixtures.vanished)
               (ClientRepository.getClientById "clientId") tt in
  outcome r = Rejected (Exception
    {| PasswordManagerException.statusCode := 404;
       PasswordManagerException.message :=
         "No client exists with ID 'clientId'";
       PasswordManagerException.errorCode := ClientNotFound |}) /\
  calls r = [DynamoDB (IDynamoDBClient.get "Client"
                         (ClientRepository.getInput "clientId"));
             Logger (ILogger.warn "Couldn't find the client by ID"
                       ClientRepository.tableOnly)].
Proof. split; reflexivity. Qed.

(** "Rejects with a Service Unavailable PasswordManagerException when the
    request to DynamoDB fails for an unknown reason". *)
Example test_getClientById_store_fails :
  outcome (run (Mock.env Fixtures.unset)
               (ClientRepository.getClientById "clientId") tt)
  = Rejected (Exception
      {| PasswordManagerException.statusCode := 503;
         PasswordManagerException.message :=
           "Service is temporarily unavailable.";
         PasswordManagerException.errorCode := DynamoDBDown |}).
Proof. reflexivity. Qed.

(** "Creates a new client entry in DynamoDB". *)
Example test_createClient :
  let entry :=
    {| Client.clientId := "uuid";
       Client.login := "login";
       Client.password := "password";
       Client.metadata :=
         {| Metadata.createdDate := "now"; Metadata.updatedDate := "now" |}
    |} in
  let r := run (Mock.env Fixtures.found)
               (ClientRepository.createClient Fixtures.input) tt in
  outcome r = Resolved entry /\
  calls r = [DateNow; Uuid;
             DynamoDB (IDynamoDBClient.save "Client" entry);
             Logger (ILogger.info "Successfully created a new client"
                       ClientRepository.tableOnly)].
Proof. split; reflexivity. Qed.

(** "Updates the client in DynamoDB": the two info messages, in order. *)
Example test_updateClient :
  let r := run (Mock.env Fixtures.found)
               (ClientRepository.updateClient "clientId" Fixtures.input) tt in
  outcome r = Resolved Fixtures.client /\
  calls r = [DateNow;
             DynamoDB (IDynamoDBClient.update "Client"
                         (ClientRepository.updateCommand
                            "clientId" Fixtures.input "now"));
             Logger (ILogger.info "Successfully updated the client"
                       {| LogContext.table := "Client";
                          LogContext.login := None;
                          LogContext.clientId := Some "clientId";
                          LogContext.error := None |});
             DynamoDB (IDynamoDBClient.get "Client"
                         (ClientRepository.getInput "clientId"));
             Logger (ILogger.info "Found client by ID"
                       ClientRepository.tableOnly)].
Proof. split; reflexivity. Qed.

(** "Rejects with a SeviceUnavailable exception when deleting the client in
    DynamoDB fails". *)
Example test_deleteClient_store_fails :
  outcome (run (Mock.env Fixtures.unset)
               (ClientRepository.deleteClient "clientId") tt)
  = Rejected (Exception
      {| PasswordManagerException.statusCode := 503;
         PasswordManagerException.message := "Service Unavailable";
         PasswordManagerException.errorCode := DynamoDBDown |}).
Proof. reflexivity. Qed.

(** ** The client repository *)

(** C6.  [getClientByLogin]: when the store's query comes back with no
    [Items] or with an empty list, the method rejects with the 404
    [ClientNotFound] exception whose message is
    "No client exists with login '<login>'"; when the query comes back with
    items, more than one in particular, the method resolves with the first
    of them. *)
Theorem getClientByLogin_not_found_or_first
    (W : Type) (env : Env W) (w : W) (login : string)
    (out : QueryCommandOutput.t) :
  let r := run env (ClientRepository.getClientByLogin login) w in
  answered (DynamoDB (IDynamoDBClient.query "Client"
                        (ClientRepository.queryInput login)))
           (Resolved out) r ->
  ((QueryCommandOutput.Items out = None \/
    QueryCommandOutput.Items out = Some []) ->
   outcome r = Rejected (Exception
     {| PasswordManagerException.statusCode := 404;
        PasswordManagerException.message :=
          "No client exists with login '" ++ login ++ "'";
        PasswordManagerException.errorCode := ClientNotFound |})) /\
  (forall (first : Client.t) (rest : list Client.t),
     QueryCommandOutput.Items out = Some (first :: rest) ->
     outcome r = Resolved first).
Proof.
  intros r H. subst r. unfold ClientRepository.getClientByLogin in *.
  cbn in *. ask.
  destruct a as [result | reason]; cbn in *.
  - destruct result as [[[|first rest]|]]; cbn in *; ask; which_event H.
    all: simplify_eq/=.
    all: split; [intros [?|?] | intros ? ? ?]; simplify_eq/=; reflexivity.
  - ask. which_event H. discriminate H.
Qed.

(** The scenario of the specification: ['nobody'] against a store whose
    query returns [{Items: []}]. *)
Lemma getClientByLogin_nobody :
  outcome (run (InMemory.env (Mock.env Fixtures.unset))
               (ClientRepository.getClientByLogin "nobody") (∅, tt))
  = Rejected (Exception
      {| PasswordManagerException.statusCode := 404;
         PasswordManagerException.message :=
           "No client exists with login 'nobody'";
         PasswordManagerException.errorCode := ClientNotFound |}).
Proof.
  refine (proj1 (getClientByLogin_not_found_or_first
                   _ (InMemory.env (Mock.env Fixtures.unset)) (∅, tt)
                   "nobody" {| QueryCommandOutput.Items := Some [] |} _) _).
  - left. reflexivity.
  - right. reflexivity.
Defined.

(** C7.  [updateClient]: when the store rejects the conditional update, as
    it does when no record exists for the id, the method rejects with the
    503 [DynamoDBDown] exception and not with a 404. *)
Theorem updateClient_failed_update_is_503
    (W : Type) (env : Env W) (w : W) (clientId : string)
    (input : ClientInput.t) (cmd : UpdateCommandInput.t) (reason : Thrown) :
  let r := run env (ClientRepository.updateClient clientId input) w in
  answered (DynamoDB (IDynamoDBClient.update "Client" cmd)) (Rejected reason) r ->
  outcome r = Rejected (Exception
    {| PasswordManagerException.statusCode := 503;
       PasswordManagerException.message := "Service Unavailable";
       PasswordManagerException.errorCode := DynamoDBDown |}) /\
  (forall e : PasswordManagerException.t,
     outcome r = Rejected (Exception e) ->
     PasswordManagerException.statusCode e <> 404).
Proof.
  intros r H. subst r. unfold ClientRepository.updateClient in *.
  cbn in *. ask. ask.
  destruct a0 as [[] | reason']; cbn in *.
  - ask. unfold ClientRepository.getClientById in *. cbn in *. ask.
    destruct a1 as [[[item|]] | reason']; cbn in *; ask; which_event H;
      discriminate H.
  - ask. split; [reflexivity | intros e He; simplify_eq/=; done].
Qed.

(** An update of a client that the in-memory store does not hold, on the
    empty store. *)
Lemma updateClient_absent_record :
  outcome (run (InMemory.env (Mock.env Fixtures.unset))
               (ClientRepository.updateClient "clientId" Fixtures.input)
               (∅, tt))
  = Rejected (Exception
      {| PasswordManagerException.statusCode := 503;
         PasswordManagerException.message := "Service Unavailable";
         PasswordManagerException.errorCode := DynamoDBDown |}).
Proof.
  refine (proj1 (updateClient_failed_update_is_503
                   _ (InMemory.env (Mock.env Fixtures.unset)) (∅, tt)
                   "clientId" Fixtures.input
                   (ClientRepository.updateCommand "clientId" Fixtures.input "now")
                   InMemory.conditionalCheckFailedException _)).
  right. left. reflexivity.
Defined.

(** On the in-memory store, whatever it holds: without a record for the id
    the condition [attribute_exists(clientId)] fails, the table stays as it
    is and the method rejects with the 503. *)
Lemma updateClient_without_record
    (W : Type) (others : Env W) (w : W) (table : gmap string Client.t)
    (clientId : string) (input : ClientInput.t) :
  table !! clientId = None ->
  let r := run (InMemory.env others)
               (ClientRepository.updateClient clientId input) (table, w) in
  outcome r = Rejected (Exception ClientRepository.dynamoDBDown) /\
  (world r).1 = table.
Proof.
  intros Hnone r. subst r. unfold ClientRepository.updateClient.
  cbn. destruct (others DateNow w) as [now w1]. cbn.
  unfold InMemory.onTable. cbn.
  rewrite (update_absent clientId input now table Hnone).
  change (bool_decide (ClientRepository.TABLE_NAME = "Client")) with true.
  cbn.
  match goal with
  | |- context [others ?c w1] => destruct (others c w1) as [[] w2]
  end.
  split; reflexivity.
Qed.

(** C10.  [updateClient]: when the conditional update succeeds and the
    re-read through [getClientById] finds no item for the id, the method
    rejects with the re-read's 404 [ClientNotFound] exception, not with the
    503 of its own [catch] clause.  The re-read's promise is returned from
    the [try] block without being awaited there
    ([returned_promise_passes_catch]). *)
Theorem updateClient_reread_not_found_is_404
    (W : Type) (env : Env W) (w : W) (clientId : string)
    (input : ClientInput.t) (cmd : UpdateCommandInput.t) :
  let r := run env (ClientRepository.updateClient clientId input) w in
  answered (DynamoDB (IDynamoDBClient.update "Client" cmd)) (Resolved tt) r ->
  answered (DynamoDB (IDynamoDBClient.get "Client"
                        (ClientRepository.getInput clientId)))
           (Resolved {| GetCommandOutput.Item := None |}) r ->
  outcome r = Rejected (Exception
    {| PasswordManagerException.statusCode := 404;
       PasswordManagerException.message :=
         "No client exists with ID '" ++ clientId ++ "'";
       PasswordManagerException.errorCode := ClientNotFound |}) /\
  outcome r <> Rejected (Exception ClientRepository.dynamoDBDown).
Proof.
  intros r Hupdate Hget. subst r. unfold ClientRepository.updateClient in *.
  cbn in *. ask. ask.
  destruct a0 as [[] | reason]; cbn in *.
  - ask. unfold ClientRepository.getClientById in *. cbn in *. ask.
    destruct a1 as [[[item|]] | reason]; cbn in *; ask; which_event Hget;
      try discriminate Hget.
    split; [reflexivity | discriminate].
  - ask. which_event Hupdate. discriminate Hupdate.
Qed.

(** The update resolves and the item is gone when it is read back. *)
Lemma updateClient_vanished_record :
  outcome (run (Mock.env Fixtures.vanished)
               (ClientRepository.updateClient "clientId" Fixtures.input) tt)
  = Rejected (Exception
      {| PasswordManagerException.statusCode := 404;
         PasswordManagerException.message :=
           "No client exists with ID 'clientId'";
         PasswordManagerException.errorCode := ClientNotFound |}).
Proof.
  refine (proj1 (updateClient_reread_not_found_is_404
                   _ (Mock.env Fixtures.vanished) tt "clientId" Fixtures.input
                   (ClientRepository.updateCommand "clientId" Fixtures.input "now")
                   _ _)).
  - right. left. reflexivity.
  - do 3 right. left. reflexivity.
Defined.

(** C9.  [createClient] of the repository: the record handed to the store
    carries the input's password as it came and the same timestamp as
    created and updated date, no call to the crypto provider is made, and
    when the store accepts the record the method resolves with that very
    record. *)
Theorem createClient_saves_input_verbatim
    (W : Type) (env : Env W) (w : W) (input : ClientInput.t) :
  let r := run env (ClientRepository.createClient input) w in
  exists (entry : Client.t) (saved : Settled unit) (log : ILogger.method),
    calls r = [DateNow; Uuid;
               DynamoDB (IDynamoDBClient.save "Client" entry); Logger log] /\
    answered (DynamoDB (IDynamoDBClient.save "Client" entry)) saved r /\
    Client.login entry = ClientInput.login input /\
    Client.password entry = ClientInput.password input /\
    Metadata.createdDate (Client.metadata entry)
      = Metadata.updatedDate (Client.metadata entry) /\
    calledTimes isCrypto r = 0%nat /\
    outcome r = match saved with
                | Resolved _ => Resolved entry
                | Rejected _ => Rejected (Exception ClientRepository.dynamoDBDown)
                end.
Proof.
  intros r. subst r. unfold ClientRepository.createClient.
  cbn. ask. ask. ask.
  destruct a1 as [[] | reason]; cbn; ask.
  - eexists _, (Resolved tt), _. unfold answered. cbn.
    repeat split; auto.
  - eexists _, (Rejected reason), _. unfold answered. cbn.
    repeat split; auto.
Qed.

(** C8.  [updateClient] against a store that holds a record for the id:
    the update command assigns to [login], [password] and
    [metadata.updatedDate] and to nothing else, so that the record keeps
    its [clientId] and [metadata.createdDate] and every other record stays
    as it was; the method then reads the record back with [getClientById]
    and resolves with it. *)
Theorem updateClient_rewrites_three_attributes
    (W : Type) (others : Env W) (w : W) (table : gmap string Client.t)
    (clientId : string) (input : ClientInput.t) (item : Client.t) :
  table !! clientId = Some item ->
  let r := run (InMemory.env others)
               (ClientRepository.updateClient clientId input) (table, w) in
  exists (now : string) (log log' : ILogger.method),
    let item' :=
      {| Client.clientId := Client.clientId item;
         Client.login := ClientInput.login input;
         Client.password := ClientInput.password input;
         Client.metadata :=
           {| Metadata.createdDate :=
                Metadata.createdDate (Client.metadata item);
              Metadata.updatedDate := now |} |} in
    answered DateNow now r /\
    calls r = [DateNow;
               DynamoDB (IDynamoDBClient.update "Client"
                           (ClientRepository.updateCommand clientId input now));
               Logger log;
               DynamoDB (IDynamoDBClient.get "Client"
                           (ClientRepository.getInput clientId));
               Logger log'] /\
    InMemory.assignedPaths (ClientRepository.updateCommand clientId input now)
    = Some [ ["login"]; ["password"]; ["metadata"; "updatedDate"] ] /\
    (world r).1 = <[ clientId := item' ]> table /\
    outcome r = Resolved item'.
Proof.
  intros Hitem r. subst r. unfold ClientRepository.updateClient.
  cbn. destruct (others DateNow w) as [now w1] eqn:Hnow. cbn.
  unfold InMemory.onTable. cbn.
  rewrite (update_present clientId input now table item Hitem).
  change (bool_decide (ClientRepository.TABLE_NAME = "Client")) with true.
  cbn.
  match goal with
  | |- context [others ?c w1] => destruct (others c w1) as [[] w2] eqn:Hlog
  end.
  unfold InMemory.onTable, InMemory.get. cbn.
  change (bool_decide (ClientRepository.TABLE_NAME = "Client")) with true.
  rewrite lookup_singleton_eq, lookup_insert_eq. cbn.
  match goal with
  | |- context [others ?c w2] => destruct (others c w2) as [[] w3] eqn:Hlog'
  end.
  eexists now, _, _. unfold answered. cbn.
  repeat split; auto.
Qed.

(** The update of the client the unit tests use. *)
Lemma updateClient_fixture :
  exists now : string,
    outcome (run (InMemory.env (Mock.env Fixtures.unset))
                 (ClientRepository.updateClient "clientId"
                    {| ClientInput.login := "username";
                       ClientInput.password := "secret" |})
                 ({[ "clientId" := Fixtures.client ]}, tt))
    = Resolved {| Client.clientId := "clientId";
                  Client.login := "username";
                  Client.password := "secret";
                  Client.metadata :=
                    {| Metadata.createdDate := "now";
                       Metadata.updatedDate := now |} |}.
Proof.
  destruct (updateClient_rewrites_three_attributes
              unit (Mock.env Fixtures.unset) tt
              {[ "clientId" := Fixtures.client ]} "clientId"
              {| ClientInput.login := "username";
                 ClientInput.password := "secret" |}
              Fixtures.client (lookup_singleton_eq _ _))
    as (now & log & log' & _ & _ & _ & _ & Hout).
  exists now. exact Hout.
Defined.

(** ** Runs of composed programs *)

(** The run of [bind p f]: the run of [p], and on its value the run of
    [f]. *)
Lemma run_bind {W A B : Type} (env : Env W) (p : Prog A) (f : A -> Prog B)
    (w : W) :
  run env (bind p f) w
  = match outcome (run env p w) with
    | Resolved a =>
        let r := run env (f a) (world (run env p w)) in
        mkRun (outcome r) (world r) (events (run env p w) ++ events r)
    | Rejected e =>
        mkRun (Rejected e) (world (run env p w)) (events (run env p w))
    end.
Proof.
  revert w. induction p as [a | e | c k IH]; intros w; cbn.
  - destruct (run env (f a) w); reflexivity.
  - reflexivity.
  - destruct (env c w) as [x w']. rewrite IH. cbn.
    destruct (outcome (run env (k (asAnswer c x)) w')); reflexivity.
Qed.

(** The loop of [getPasswords] over the stored records makes no call but
    to [decrypt], whatever the answers. *)
Lemma forEach_decryptEntry_only_decrypts {W : Type} (env : Env W)
    (stored : list Password.t) (w : W) :
  Forall (fun c => isDecrypt c = true)
         (map callOf (events (run env (forEach decryptEntry stored) w))).
Proof.
  revert w.
  induction stored as [| s stored IH]; intros w; [constructor |].
  cbn.
  destruct (env (CryptoCall (Crypto.decrypt (Password.value s))) w)
    as [[v | reason] w']; cbn; constructor; try reflexivity; [| constructor].
  unfold mbind, Prog_bind. rewrite run_bind.
  destruct (outcome (run env (forEach decryptEntry stored) w')); cbn;
    rewrite ?app_nil_r; apply IH.
Qed.

(** With a crypto provider that computes [decrypt], what the loop leaves
    of each record, and its calls: one per record, on the stored value. *)
Lemma forEach_decryptEntry_outcome {W : Type} (env : Env W)
    (encrypt decrypt : string -> string) (stored : list Password.t) (w : W) :
  cryptoComputes env encrypt decrypt ->
  outcome (run env (forEach decryptEntry stored) w)
  = Resolved (map (fun s => Password.setValue (decrypt (Password.value s)) s)
                  stored) /\
  map callOf (events (run env (forEach decryptEntry stored) w))
  = map (fun s => CryptoCall (Crypto.decrypt (Password.value s))) stored.
Proof.
  intros Hcrypto. revert w.
  induction stored as [| s stored IH]; intros w; [split; reflexivity |].
  cbn.
  pose proof (proj2 (Hcrypto w (Password.value s))) as Hdecrypt.
  destruct (env (CryptoCall (Crypto.decrypt (Password.value s))) w)
    as [v w'].
  cbn in Hdecrypt. subst v. cbn.
  unfold mbind, Prog_bind. rewrite run_bind.
  destruct (IH w') as [Hout Hcalls]. rewrite Hout. cbn.
  rewrite map_app, Hcalls, app_nil_r. split; reflexivity.
Qed.

(** ** The loop on the objects themselves *)

Lemma InPlace_forEach_elsewhere (f : Password.t -> Password.t)
    (refs : list nat) (heap : gmap nat Password.t) (ref : nat) :
  ref ∉ refs -> InPlace.forEach f refs heap !! ref = heap !! ref.
Proof.
  revert heap. induction refs as [| r refs IH]; intros heap Hnot; [done |].
  apply not_elem_of_cons in Hnot as [Hne Hnot]. cbn.
  rewrite IH by done. by rewrite lookup_alter_ne.
Qed.

(** On an array of distinct objects, as the repository builds it from a
    store query, the loop leaves of each object what the callback makes of
    it: the list-level [forEach] above. *)
Lemma InPlace_forEach_distinct (f : Password.t -> Password.t)
    (refs : list nat) (heap : gmap nat Password.t) :
  NoDup refs ->
  InPlace.deref (InPlace.forEach f refs heap) refs
  = map (fmap f) (InPlace.deref heap refs).
Proof.
  unfold InPlace.deref. revert heap.
  induction refs as [| r refs IH]; intros heap Hnodup; [done |].
  apply NoDup_cons in Hnodup as [Hnot Hnodup]. cbn. f_equal.
  - rewrite InPlace_forEach_elsewhere by done. by rewrite lookup_alter_eq.
  - rewrite IH by done. rewrite !map_map.
    apply map_ext_in. intros r' Hin. rewrite lookup_alter_ne; [done |].
    intros ->. apply Hnot. by apply list_elem_of_In.
Qed.

Lemma InPlace_decryptEach_elsewhere {W : Type} (env : Env W)
    (refs : list nat) (heap heap' : gmap nat Password.t) (w : W) (ref : nat) :
  ref ∉ refs ->
  outcome (run env (InPlace.decryptEach refs heap) w) = Resolved heap' ->
  heap' !! ref = heap !! ref.
Proof.
  revert heap w. induction refs as [| r refs IH]; intros heap w Hnot; cbn.
  { intros H. by simplify_eq. }
  apply not_elem_of_cons in Hnot as [Hne Hnot].
  destruct (heap !! r) as [s |] eqn:Hr; [| by apply IH].
  cbn.
  destruct (env (CryptoCall (Crypto.decrypt (Password.value s))) w)
    as [[v | reason] w']; cbn; [| done].
  intros H. apply IH in H; [| done]. by rewrite H, lookup_insert_ne.
Qed.

(** On an array of distinct objects the loop on the objects is the
    list-level loop of the handler: the same calls with the same answers,
    and at the end each object is what the list-level loop has in its
    place. *)
Lemma InPlace_decryptEach_distinct {W : Type} (env : Env W)
    (refs : list nat) (heap : gmap nat Password.t)
    (stored : list Password.t) (w : W) :
  NoDup refs ->
  InPlace.deref heap refs = map Some stored ->
  let r := run env (InPlace.decryptEach refs heap) w in
  let r' := run env (forEach decryptEntry stored) w in
  events r = events r' /\
  world r = world r' /\
  match outcome r, outcome r' with
  | Resolved heap', Resolved passwords =>
      InPlace.deref heap' refs = map Some passwords
  | Rejected reason, Rejected reason' => reason = reason'
  | _, _ => False
  end.
Proof.
  unfold InPlace.deref. revert heap stored w.
  induction refs as [| ref refs IH]; intros heap stored w Hnodup Hderef.
  { destruct stored; [| done]. cbn. done. }
  destruct stored as [| s stored]; [done |].
  apply NoDup_cons in Hnodup as [Hnot Hnodup].
  cbn in Hderef. injection Hderef as Href Hderef.
  cbn. rewrite Href. cbn.
  destruct (env (CryptoCall (Crypto.decrypt (Password.value s))) w)
    as [[v | reason] w'] eqn:E; cbn; [| done].
  unfold mbind, Prog_bind. rewrite run_bind.
  destruct (IH (<[ ref := Password.setValue v s ]> heap) stored w' Hnodup)
    as (Hev & Hw & Hout).
  { rewrite <- Hderef. apply map_ext_in. intros r' Hin.
    rewrite lookup_insert_ne; [done |].
    intros ->. apply Hnot. by apply list_elem_of_In. }
  pose proof (InPlace_decryptEach_elsewhere env refs
                (<[ ref := Password.setValue v s ]> heap)) as Hkeep.
  destruct (outcome (run env (InPlace.decryptEach refs _) w'))
    as [heap' | reason] eqn:Hheap;
    destruct (outcome (run env (forEach decryptEntry stored) w'))
      as [passwords | reason'] eqn:Hlist; try done; cbn.
  - rewrite Hev, Hw, app_nil_r. repeat split. f_equal; [| done].
    rewrite (Hkeep heap' w' ref Hnot Hheap). by rewrite lookup_insert_eq.
  - rewrite Hev, Hw. done.
Qed.

(** An array that holds one object twice: the second pass decrypts what
    the first one left, and both entries show the result. *)
Example InPlace_decryptEach_aliased :
  let heap : gmap nat Password.t := {[ 0%nat := Fixtures.password ]} in
  let r := run (Mock.env Fixtures.unset)
               (InPlace.decryptEach [0%nat; 0%nat] heap) tt in
  calls r = [CryptoCall (Crypto.decrypt "value");
             CryptoCall (Crypto.decrypt "decrypted(value)")] /\
  (exists heap' : gmap nat Password.t,
     outcome r = Resolved heap' /\
     Password.value <$> heap' !! 0%nat = Some "decrypted(decrypted(value))").
Proof.
  split; [reflexivity |]. eexists. split; [reflexivity |].
  by rewrite lookup_insert_eq.
Qed.

(** ** The password service and the get-passwords controller *)

(** Assigning the decrypted value to each record leaves the other fields
    and the order. *)
Lemma setValue_decrypt_frame (decrypt : string -> string)
    (stored : list Password.t) :
  Forall2 (fun stored p =>
             Password.value p = decrypt (Password.value stored) /\
             Password.passwordId p = Password.passwordId stored /\
             Password.name p = Password.name stored /\
             Password.website p = Password.website stored /\
             Password.login p = Password.login stored /\
             Password.clientId p = Password.clientId stored /\
             Password.metadata p = Password.metadata stored)
          stored
          (map (fun s => Password.setValue (decrypt (Password.value s)) s)
               stored).
Proof.
  induction stored as [| s l IH]; constructor; [| exact IH].
  repeat split.
Qed.

(** C3.  [getPasswords]: when the repository resolves with a non-empty
    list of records, the service resolves with the records in the same
    order, each with its [value] replaced by [decrypt] of the stored value
    and every other field as stored; [decrypt] is called once per record,
    on the stored value.  The controller's handler does the same. *)
Theorem getPasswords_decrypts_every_value
    (W : Type) (env : Env W) (w : W) (encrypt decrypt : string -> string)
    (clientId : string) (first : Password.t) (rest : list Password.t) :
  cryptoComputes env encrypt decrypt ->
  let r := run env (PasswordService.getPasswords clientId) w in
  let r' := run env (GetPasswordsController.handler clientId) w in
  answered (PasswordRepo (IPasswordRepository.getPasswordsByClientId clientId))
           (Resolved (first :: rest)) r ->
  exists returned : list Password.t,
    outcome r = Resolved {| GetPasswordsResult.passwords := returned |} /\
    outcome r' = Resolved {| GetPasswordsResponse.statusCode := 200;
                             GetPasswordsResponse.message := "Ok";
                             GetPasswordsResponse.passwords := returned |} /\
    Forall2 (fun stored p =>
               Password.value p = decrypt (Password.value stored) /\
               Password.passwordId p = Password.passwordId stored /\
               Password.name p = Password.name stored /\
               Password.website p = Password.website stored /\
               Password.login p = Password.login stored /\
               Password.clientId p = Password.clientId stored /\
               Password.metadata p = Password.metadata stored)
            (first :: rest) returned /\
    calls r = PasswordRepo (IPasswordRepository.getPasswordsByClientId clientId)
              :: map (fun stored =>
                        CryptoCall (Crypto.decrypt (Password.value stored)))
                     (first :: rest).
Proof.
  intros Hcrypto r r' H. subst r r'.
  unfold PasswordService.getPasswords, GetPasswordsController.handler in *.
  cbn in *. ask.
  destruct a as [stored | reason]; cbn in *.
  - unfold mbind, Prog_bind in *. rewrite !run_bind in *.
    destruct (forEach_decryptEntry_outcome env encrypt decrypt stored w0
                Hcrypto) as [Hout Hcalls].
    rewrite Hout in *. cbn in *.
    unfold answered in H. cbn in H. rewrite app_nil_r in H.
    destruct H as [H | H].
    + same_event H. simplify_eq/=.
      eexists. split; [reflexivity |]. split; [reflexivity |].
      unfold calls. cbn. rewrite app_nil_r, Hcalls.
      split; [| reflexivity].
      exact (setValue_decrypt_frame decrypt (first :: rest)).
    + exfalso. apply (in_map callOf) in H. rewrite Hcalls in H. cbn in H.
      apply in_map_iff in H as (s & Hs & _). discriminate Hs.
  - which_event H. discriminate H.
Qed.

(** The set-up of the unit test: the repository resolves with one record,
    and [decrypt] is called once, with the stored ['value']. *)
Lemma getPasswords_one_password :
  let r := run (Mock.env Fixtures.onePassword)
               (PasswordService.getPasswords "clientId") tt in
  exists returned : list Password.t,
    outcome r = Resolved {| GetPasswordsResult.passwords := returned |} /\
    calls r
    = [PasswordRepo (IPasswordRepository.getPasswordsByClientId "clientId");
       CryptoCall (Crypto.decrypt "value")].
Proof.
  destruct (getPasswords_decrypts_every_value
              unit (Mock.env Fixtures.onePassword) tt
              Fixtures.encrypt Fixtures.decrypt "clientId"
              Fixtures.password [])
    as (returned & Hout & _ & _ & Hcalls).
  - intros w s. split; reflexivity.
  - left. reflexivity.
  - exists returned. split; [exact Hout | exact Hcalls].
Defined.

(** C5.  [getPasswords]: when the repository rejects, with [NotFound] in
    particular, the service rejects with that same reason and [decrypt] is
    not called.  The controller's handler does the same. *)
Theorem getPasswords_propagates_rejection
    (W : Type) (env : Env W) (w : W) (clientId : string) (reason : Thrown) :
  let r := run env (PasswordService.getPasswords clientId) w in
  let r' := run env (GetPasswordsController.handler clientId) w in
  answered (PasswordRepo (IPasswordRepository.getPasswordsByClientId clientId))
           (Rejected reason) r ->
  (outcome r = Rejected reason /\ calledTimes isDecrypt r = 0%nat) /\
  (outcome r' = Rejected reason /\ calledTimes isDecrypt r' = 0%nat).
Proof.
  intros r r' H. subst r r'.
  unfold PasswordService.getPasswords, GetPasswordsController.handler in *.
  cbn in *. ask.
  destruct a as [stored | reason']; cbn in *.
  - exfalso. unfold mbind, Prog_bind in H. rewrite run_bind in H.
    pose proof (forEach_decryptEntry_only_decrypts env stored w0) as Hcalls.
    assert (In (Ev (PasswordRepo
                      (IPasswordRepository.getPasswordsByClientId clientId))
                   (Rejected reason))
               (Ev (PasswordRepo
                      (IPasswordRepository.getPasswordsByClientId clientId))
                   (Resolved stored)
                :: events (run env (forEach decryptEntry stored) w0)))
      as [H' | H'].
    { unfold answered in H.
      destruct (outcome (run env (forEach decryptEntry stored) w0));
        cbn in H; rewrite ?app_nil_r in H; exact H. }
    + same_event H'. discriminate H'.
    + apply (in_map callOf) in H'. rewrite Forall_forall in Hcalls.
      apply list_elem_of_In, Hcalls in H'. discriminate H'.
  - which_event H. simplify_eq/=. repeat split.
Qed.

(** The set-up of the unit test: the repository rejects with [NotFound]. *)
Lemma getPasswords_not_found :
  let r := run (Mock.env Fixtures.noPasswords)
               (PasswordService.getPasswords "clientId") tt in
  outcome r = Rejected (Exception PasswordManagerException.notFound) /\
  calledTimes isDecrypt r = 0%nat.
Proof.
  refine (proj1 (getPasswords_propagates_rejection
                   unit (Mock.env Fixtures.noPasswords) tt "clientId"
                   (Exception PasswordManagerException.notFound) _)).
  left. reflexivity.
Defined.

(** ** The client service *)

(** C1.  [createClient] of the service, on the client repository of this
    code base: when the lookup by login finds no client, the service calls
    [encrypt] once, on the input's password, and hands one record to the
    store, by [save], whose login is the input's and whose password is
    [encrypt(input.password)]; that save is its only write to the store.
    When the store accepts the record, the service resolves with a
    [ClientResponse] (a record of [clientId], [login] and [metadata],
    without a password) that carries the input's login and the id and the
    dates of the record saved. *)
Theorem createClient_persists_encrypted_password
    (W : Type) (env : Env W) (w : W) (encrypt decrypt : string -> string)
    (input : ClientInput.t) (out : QueryCommandOutput.t) :
  cryptoComputes env encrypt decrypt ->
  let r := run env (withClientRepository (ClientService.createClient input)) w in
  answered (DynamoDB (IDynamoDBClient.query "Client"
                        (ClientRepository.queryInput (ClientInput.login input))))
           (Resolved out) r ->
  QueryCommandOutput.Items out = None \/
  QueryCommandOutput.Items out = Some [] ->
  exists (entry : Client.t) (saved : Settled unit),
    answered (DynamoDB (IDynamoDBClient.save "Client" entry)) saved r /\
    List.filter isStoreWrite (calls r)
    = [DynamoDB (IDynamoDBClient.save "Client" entry)] /\
    Client.login entry = ClientInput.login input /\
    Client.password entry = encrypt (ClientInput.password input) /\
    List.filter isCrypto (calls r)
    = [CryptoCall (Crypto.encrypt (ClientInput.password input))] /\
    outcome r
    = match saved with
      | Resolved _ =>
          Resolved {| CreateClientResponse.client :=
            {| ClientResponse.clientId := Client.clientId entry;
               ClientResponse.login := ClientInput.login input;
               ClientResponse.metadata := Client.metadata entry |} |}
      | Rejected _ => Rejected (Exception ClientRepository.dynamoDBDown)
      end.
Proof.
  intros Hcrypto r Hquery Hitems. subst r.
  unfold ClientService.createClient, ClientRepository.getClientByLogin in *.
  cbn in *. ask.
  destruct a as [result | reason]; cbn in *.
  - destruct result as [[[|first rest]|]]; cbn in *; ask.
    + change (bool_decide (HttpStatus.NOT_FOUND = HttpStatus.NOT_FOUND))
        with true in *. cbn in *.
      pose proof (proj1 (Hcrypto w1 (ClientInput.password input))) as Hencrypt.
      ask. cbn in Hencrypt. subst. cbn in *.
      unfold ClientRepository.createClient in *. cbn in *. ask. ask. ask.
      destruct a2 as [[] | reason]; cbn in *; ask.
      * eexists _, (Resolved tt). unfold answered. cbn.
        split; [do 5 right; left; reflexivity |]. repeat split.
      * eexists _, (Rejected reason). unfold answered. cbn.
        split; [do 5 right; left; reflexivity |]. repeat split.
    + which_event Hquery; try discriminate Hquery. simplify_eq/=.
      destruct Hitems; discriminate.
    + change (bool_decide (HttpStatus.NOT_FOUND = HttpStatus.NOT_FOUND))
        with true in *. cbn in *.
      pose proof (proj1 (Hcrypto w1 (ClientInput.password input))) as Hencrypt.
      ask. cbn in Hencrypt. subst. cbn in *.
      unfold ClientRepository.createClient in *. cbn in *. ask. ask. ask.
      destruct a2 as [[] | reason]; cbn in *; ask.
      * eexists _, (Resolved tt). unfold answered. cbn.
        split; [do 5 right; left; reflexivity |]. repeat split.
      * eexists _, (Rejected reason). unfold answered. cbn.
        split; [do 5 right; left; reflexivity |]. repeat split.
  - ask.
    change (bool_decide (HttpStatus.SERVICE_UNAVAILABLE = HttpStatus.NOT_FOUND))
      with false in *. cbn in *.
    which_event Hquery; discriminate Hquery.
Qed.

(** A first client on the empty in-memory store: the record is saved with
    the encrypted password and the store accepts it. *)
Lemma createClient_on_empty_store :
  let r := run (InMemory.env (Mock.env Fixtures.unset))
               (withClientRepository (ClientService.createClient Fixtures.input))
               (∅, tt) in
  exists (entry : Client.t) (saved : Settled unit),
    answered (DynamoDB (IDynamoDBClient.save "Client" entry)) saved r /\
    Client.password entry = "encrypted(password)" /\
    Client.password <$> ((world r).1 !! "uuid") = Some "encrypted(password)".
Proof.
  destruct (createClient_persists_encrypted_password
              _ (InMemory.env (Mock.env Fixtures.unset)) (∅, tt)
              Fixtures.encrypt Fixtures.decrypt Fixtures.input
              {| QueryCommandOutput.Items := Some [] |})
    as (entry & saved & Hsaved & _ & _ & Hpassword & _).
  - intros w s. split; reflexivity.
  - left. reflexivity.
  - right. reflexivity.
  - exists entry, saved. split; [exact Hsaved |].
    split; [exact Hpassword | reflexivity].
Defined.

(** C2.  [createClient] of the service: when the lookup by login resolves
    with a client, the service rejects with the 400 [LoginAlreadyExists]
    exception, and neither [encrypt] nor the repository's [createClient] is
    called. *)
Theorem createClient_login_in_use
    (W : Type) (env : Env W) (w : W) (input : ClientInput.t)
    (existing : Client.t) :
  let r := run env (ClientService.createClient input) w in
  answered (ClientRepo (IClientRepository.getClientByLogin
                          (ClientInput.login input)))
           (Resolved existing) r ->
  outcome r = Rejected (Exception
    {| PasswordManagerException.statusCode := 400;
       PasswordManagerException.message := "Login is already in use";
       PasswordManagerException.errorCode := LoginAlreadyExists |}) /\
  calledTimes isEncrypt r = 0%nat /\
  calledTimes isRepositoryCreate r = 0%nat.
Proof.
  intros r H. subst r. unfold ClientService.createClient in *.
  cbn in *. ask.
  destruct a as [found | reason]; cbn in *; [repeat split |].
  exfalso. destruct (ClientService.isNotFound reason); cbn in *.
  - ask. destruct a as [encrypted | thrown]; cbn in *.
    + ask. destruct a; cbn in *; which_event H; discriminate H.
    + which_event H. discriminate H.
  - which_event H. discriminate H.
Qed.

(** The set-up of the unit test: the login is taken. *)
Lemma createClient_login_taken :
  let r := run (Mock.env Fixtures.loginTaken)
               (ClientService.createClient Fixtures.input) tt in
  outcome r = Rejected (Exception ClientService.loginAlreadyExists) /\
  calledTimes isEncrypt r = 0%nat /\
  calledTimes isRepositoryCreate r = 0%nat.
Proof.
  refine (createClient_login_in_use
            unit (Mock.env Fixtures.loginTaken) tt Fixtures.input
            Fixtures.client _).
  left. reflexivity.
Defined.

(** With the client repository of this code base: when the store's query
    holds a record for the login, nothing is written to the store. *)
Lemma createClient_login_in_use_writes_nothing
    (W : Type) (env : Env W) (w : W) (input : ClientInput.t)
    (first : Client.t) (rest : list Client.t) :
  let r := run env (withClientRepository (ClientService.createClient input)) w in
  answered (DynamoDB (IDynamoDBClient.query "Client"
                        (ClientRepository.queryInput (ClientInput.login input))))
           (Resolved {| QueryCommandOutput.Items := Some (first :: rest) |}) r ->
  outcome r = Rejected (Exception ClientService.loginAlreadyExists) /\
  calledTimes isStoreWrite r = 0%nat /\
  calledTimes isEncrypt r = 0%nat.
Proof.
  intros r H. subst r.
  unfold ClientService.createClient, ClientRepository.getClientByLogin in *.
  cbn in *. ask.
  destruct a as [result | reason]; cbn in *.
  - destruct result as [[[|first' rest']|]]; cbn in *; ask.
    + exfalso.
      change (bool_decide (HttpStatus.NOT_FOUND = HttpStatus.NOT_FOUND))
        with true in *. cbn in *.
      ask. destruct a0 as [encrypted | thrown]; cbn in *;
        [| which_event H; discriminate H].
      unfold ClientRepository.createClient in *. cbn in *.
      ask. ask. ask.
      destruct a2 as [[] | reason]; cbn in *; ask; which_event H;
        discriminate H.
    + repeat split.
    + exfalso.
      change (bool_decide (HttpStatus.NOT_FOUND = HttpStatus.NOT_FOUND))
        with true in *. cbn in *.
      ask. destruct a0 as [encrypted | thrown]; cbn in *;
        [| which_event H; discriminate H].
      unfold ClientRepository.createClient in *. cbn in *.
      ask. ask. ask.
      destruct a2 as [[] | reason]; cbn in *; ask; which_event H;
        discriminate H.
  - ask.
    change (bool_decide (HttpStatus.SERVICE_UNAVAILABLE = HttpStatus.NOT_FOUND))
      with false in *. cbn in *.
    which_event H. discriminate H.
Qed.

(** C4.  [deleteClient] of the service, for every client id and whatever
    the two repositories answer: it calls the bulk delete of the client's
    passwords exactly once and the repository's [deleteClient] for the id
    exactly once, in that order, and makes no other call.  It resolves
    when both calls resolve, and when one of them rejects it rejects with
    the reason of a call that did. *)
Theorem deleteClient_passwords_then_client
    (W : Type) (env : Env W) (w : W) (clientId : string) :
  let r := run env (ClientService.deleteClient clientId) w in
  let bulkDelete :=
    PasswordRepo (IPasswordRepository.deletePasswordsForClientId clientId) in
  let clientDelete := ClientRepo (IClientRepository.deleteClient clientId) in
  exists bulk deleted : Settled unit,
    calls r = [bulkDelete; clientDelete] /\
    calledTimes isBulkDelete r = 1%nat /\
    calledTimes isRepositoryDeleteClient r = 1%nat /\
    answered bulkDelete bulk r /\
    answered clientDelete deleted r /\
    match bulk, deleted with
    | Resolved _, Resolved _ => outcome r = Resolved tt
    | _, _ =>
        exists reason : Thrown,
          outcome r = Rejected reason /\
          (bulk = Rejected reason \/ deleted = Rejected reason)
    end.
Proof.
  intros r bulkDelete clientDelete. subst r bulkDelete clientDelete.
  unfold ClientService.deleteClient. cbn. ask. ask.
  exists a, a0. unfold answered.
  destruct a as [[] | reason]; destruct a0 as [[] | reason']; cbn;
    repeat split; eauto.
Qed.

(** The client owns no password and the bulk delete rejects with
    [NotFound]: the client record's delete is called all the same. *)
Example deleteClient_after_failed_bulk_delete :
  let r := run (Mock.env Fixtures.noPasswords)
               (ClientService.deleteClient "clientId") tt in
  calls r = [PasswordRepo
               (IPasswordRepository.deletePasswordsForClientId "clientId");
             ClientRepo (IClientRepository.deleteClient "clientId")] /\
  outcome r = Rejected (Exception PasswordManagerException.notFound).
Proof. split; reflexivity. Qed.

(** * Further properties of the client repository and the controller *)

(** ** Each method by the answers of the store *)

(** X1.  [getClientById] makes one call to the store, the [get] keyed by
    the id, and one log call, and settles by the store's answer: with the
    item when there is one; with the 404 [ClientNotFound] exception
    "No client exists with ID '<id>'", after a warning, when there is none;
    with the 503 [DynamoDBDown] exception "Service is temporarily
    unavailable.", after an error log that carries the store's error, when
    the store call fails. *)
Theorem getClientById_by_store_answer
    (W : Type) (env : Env W) (w : W) (clientId : string) :
  let r := run env (ClientRepository.getClientById clientId) w in
  exists (got : Settled GetCommandOutput.t) (log : ILogger.method),
    calls r = [DynamoDB (IDynamoDBClient.get "Client"
                           {| GetCommandInput.TableName := "Client";
                              GetCommandInput.Key :=
                                {[ "clientId" := clientId ]} |});
               Logger log] /\
    answered (DynamoDB (IDynamoDBClient.get "Client"
                          (ClientRepository.getInput clientId))) got r /\
    match got with
    | Resolved {| GetCommandOutput.Item := Some item |} =>
        outcome r = Resolved item /\
        log = ILogger.info "Found client by ID" ClientRepository.tableOnly
    | Resolved {| GetCommandOutput.Item := None |} =>
        outcome r = Rejected (Exception
          {| PasswordManagerException.statusCode := 404;
             PasswordManagerException.message :=
               "No client exists with ID '" ++ clientId ++ "'";
             PasswordManagerException.errorCode := ClientNotFound |}) /\
        log = ILogger.warn "Couldn't find the client by ID"
                ClientRepository.tableOnly
    | Rejected reason =>
        outcome r = Rejected (Exception
          {| PasswordManagerException.statusCode := 503;
             PasswordManagerException.message :=
               "Service is temporarily unavailable.";
             PasswordManagerException.errorCode := DynamoDBDown |}) /\
        log = ILogger.error "Failed to find the client by ID"
                {| LogContext.table := "Client"; LogContext.login := None;
                   LogContext.clientId := None;
                   LogContext.error := Some reason |}
    end.
Proof.
  intros r. subst r. unfold ClientRepository.getClientById.
  cbn. ask.
  destruct a as [[[item |]] | reason]; cbn; ask.
  - eexists (Resolved {| GetCommandOutput.Item := Some item |}), _.
    unfold answered. cbn. repeat split; auto.
  - eexists (Resolved {| GetCommandOutput.Item := None |}), _.
    unfold answered. cbn. repeat split; auto.
  - eexists (Rejected reason), _.
    unfold answered. cbn. repeat split; auto.
Qed.

(** X2.  [getClientByLogin]: when the store's query fails, the method
    rejects with the 503 [DynamoDBDown] exception "Service is temporarily
    unavailable.", whatever the store's error was; that error goes to the
    error log.  The query is the only call to the store. *)
Theorem getClientByLogin_store_failure
    (W : Type) (env : Env W) (w : W) (login : string) (reason : Thrown) :
  let r := run env (ClientRepository.getClientByLogin login) w in
  answered (DynamoDB (IDynamoDBClient.query "Client"
                        (ClientRepository.queryInput login)))
           (Rejected reason) r ->
  outcome r = Rejected (Exception
    {| PasswordManagerException.statusCode := 503;
       PasswordManagerException.message :=
         "Service is temporarily unavailable.";
       PasswordManagerException.errorCode := DynamoDBDown |}) /\
  calls r = [DynamoDB (IDynamoDBClient.query "Client"
                         (ClientRepository.queryInput login));
             Logger (ILogger.error "Failed to find the client by login"
                       {| LogContext.table := "Client";
                          LogContext.login := Some login;
                          LogContext.clientId := None;
                          LogContext.error := Some reason |})].
Proof.
  intros r H. subst r. unfold ClientRepository.getClientByLogin in *.
  cbn in *. ask.
  destruct a as [result | reason']; cbn in *.
  - destruct result as [[[|first rest]|]]; cbn in *; ask; which_event H;
      discriminate H.
  - ask. which_event H. simplify_eq/=. split; reflexivity.
Qed.

(** No method of the store was given an answer. *)
Lemma getClientByLogin_store_down :
  outcome (run (Mock.env Fixtures.unset)
               (ClientRepository.getClientByLogin "login") tt)
  = Rejected (Exception ClientRepository.temporarilyUnavailable).
Proof.
  refine (proj1 (getClientByLogin_store_failure
                   unit (Mock.env Fixtures.unset) tt "login"
                   Mock.somethingBroke _)).
  left. reflexivity.
Defined.

(** X3.  [getClientByLogin] never writes: whatever the store answers, the
    run holds exactly one call to the store, and it is the query on
    [LoginIndex] with the login as the key value. *)
Theorem getClientByLogin_reads_once
    (W : Type) (env : Env W) (w : W) (login : string) :
  let r := run env (ClientRepository.getClientByLogin login) w in
  List.filter isStoreCall (calls r)
  = [DynamoDB (IDynamoDBClient.query "Client"
       {| QueryCommandInput.TableName := "Client";
          QueryCommandInput.IndexName := "LoginIndex";
          QueryCommandInput.KeyConditionExpression := "login = :login";
          QueryCommandInput.ExpressionAttributeValues :=
            {[ ":login" := login ]} |})] /\
  calledTimes isStoreWrite r = 0%nat.
Proof.
  intros r. subst r. unfold ClientRepository.getClientByLogin.
  cbn. ask.
  destruct a as [result | reason]; cbn.
  - destruct result as [[[|first rest]|]]; cbn; ask; split; reflexivity.
  - ask. split; reflexivity.
Qed.

(** X4.  [deleteClient] makes one call to the store, the [delete] keyed by
    the id, and settles by its answer: it resolves when the store does, and
    rejects with the 503 [DynamoDBDown] exception, under the default
    message "Service Unavailable", when the store call fails; the store's
    error goes to the error log. *)
Theorem deleteClient_by_store_answer
    (W : Type) (env : Env W) (w : W) (clientId : string) :
  let r := run env (ClientRepository.deleteClient clientId) w in
  exists (deleted : Settled unit) (log : ILogger.method),
    calls r = [DynamoDB (IDynamoDBClient.delete "Client"
                           {| DeleteCommandInput.TableName := "Client";
                              DeleteCommandInput.Key :=
                                {[ "clientId" := clientId ]} |});
               Logger log] /\
    answered (DynamoDB (IDynamoDBClient.delete "Client"
                          (ClientRepository.deleteInput clientId)))
             deleted r /\
    match deleted with
    | Resolved _ =>
        outcome r = Resolved tt /\
        log = ILogger.info "Successfully deleted client"
                {| LogContext.table := "Client"; LogContext.login := None;
                   LogContext.clientId := Some clientId;
                   LogContext.error := None |}
    | Rejected reason =>
        outcome r = Rejected (Exception
          {| PasswordManagerException.statusCode := 503;
             PasswordManagerException.message := "Service Unavailable";
             PasswordManagerException.errorCode := DynamoDBDown |}) /\
        log = ILogger.error "Failed to delete client"
                {| LogContext.table := "Client"; LogContext.login := None;
                   LogContext.clientId := Some clientId;
                   LogContext.error := Some reason |}
    end.
Proof.
  intros r. subst r. unfold ClientRepository.deleteClient.
  cbn. ask.
  destruct a as [[] | reason]; cbn; ask.
  - eexists (Resolved tt), _. unfold answered. cbn. repeat split; auto.
  - eexists (Rejected reason), _. unfold answered. cbn. repeat split; auto.
Qed.

(** X5.  [updateClient]: when the store rejects the update, the record is
    not read back: the update is the only call to the store, and the
    store's error goes to the error log. *)
Theorem updateClient_failed_update_is_not_reread
    (W : Type) (env : Env W) (w : W) (clientId : string)
    (input : ClientInput.t) (cmd : UpdateCommandInput.t) (reason : Thrown) :
  let r := run env (ClientRepository.updateClient clientId input) w in
  answered (DynamoDB (IDynamoDBClient.update "Client" cmd)) (Rejected reason) r ->
  calledTimes isStoreRead r = 0%nat /\
  List.filter isStoreCall (calls r)
  = [DynamoDB (IDynamoDBClient.update "Client" cmd)] /\
  In (Logger (ILogger.error "Failed to update client"
                {| LogContext.table := "Client"; LogContext.login := None;
                   LogContext.clientId := Some clientId;
                   LogContext.error := Some reason |}))
     (calls r).
Proof.
  intros r H. subst r. unfold ClientRepository.updateClient in *.
  cbn in *. ask. ask.
  destruct a0 as [[] | reason']; cbn in *.
  - ask. unfold ClientRepository.getClientById in *. cbn in *. ask.
    destruct a1 as [[[item|]] | reason']; cbn in *; ask; which_event H;
      discriminate H.
  - ask. which_event H. simplify_eq/=. repeat split. cbn. auto.
Qed.

(** The update on the empty in-memory store. *)
Lemma updateClient_absent_record_is_not_reread :
  calledTimes isStoreRead
    (run (InMemory.env (Mock.env Fixtures.unset))
         (ClientRepository.updateClient "clientId" Fixtures.input) (∅, tt))
  = 0%nat.
Proof.
  refine (proj1 (updateClient_failed_update_is_not_reread
                   _ (InMemory.env (Mock.env Fixtures.unset)) (∅, tt)
                   "clientId" Fixtures.input
                   (ClientRepository.updateCommand "clientId" Fixtures.input "now")
                   InMemory.conditionalCheckFailedException _)).
  right. left. reflexivity.
Defined.

(** X6.  [updateClient]: when the update succeeds and the store fails on
    the read that follows, the method rejects with the 503 of
    [getClientById], "Service is temporarily unavailable.", and not with
    the "Service Unavailable" of its own [catch] clause; the update has
    been made, and it is the only write. *)
Theorem updateClient_reread_store_failure
    (W : Type) (env : Env W) (w : W) (clientId : string)
    (input : ClientInput.t) (cmd : UpdateCommandInput.t) (reason : Thrown) :
  let r := run env (ClientRepository.updateClient clientId input) w in
  answered (DynamoDB (IDynamoDBClient.update "Client" cmd)) (Resolved tt) r ->
  answered (DynamoDB (IDynamoDBClient.get "Client"
                        (ClientRepository.getInput clientId)))
           (Rejected reason) r ->
  outcome r = Rejected (Exception
    {| PasswordManagerException.statusCode := 503;
       PasswordManagerException.message :=
         "Service is temporarily unavailable.";
       PasswordManagerException.errorCode := DynamoDBDown |}) /\
  List.filter isStoreWrite (calls r)
  = [DynamoDB (IDynamoDBClient.update "Client" cmd)].
Proof.
  intros r Hupdate Hget. subst r. unfold ClientRepository.updateClient in *.
  cbn in *. ask. ask.
  destruct a0 as [[] | reason']; cbn in *.
  - ask. unfold ClientRepository.getClientById in *. cbn in *. ask.
    destruct a1 as [[[item|]] | reason']; cbn in *; ask; which_event Hget;
      try discriminate Hget.
    which_event Hupdate; try discriminate Hupdate.
    split; reflexivity.
  - ask. which_event Hupdate. discriminate Hupdate.
Qed.

(** The update resolves and the read after it fails. *)
Lemma updateClient_reread_fails :
  outcome (run (Mock.env Scenarios.rereadFails)
               (ClientRepository.updateClient "clientId" Fixtures.input) tt)
  = Rejected (Exception ClientRepository.temporarilyUnavailable).
Proof.
  refine (proj1 (updateClient_reread_store_failure
                   unit (Mock.env Scenarios.rereadFails) tt
                   "clientId" Fixtures.input
                   (ClientRepository.updateCommand "clientId" Fixtures.input "now")
                   Mock.somethingBroke _ _)).
  - right. left. reflexivity.
  - do 3 right. left. reflexivity.
Defined.

(** ** What the methods reject with *)


(** A run in an [Env] is the run in the environment that tells the
    program that every log call returned, and no log call of it throws. *)
Lemma run_runAny {W A : Type} (env : Env W) (p : Prog A) (w : W) :
  run env p w = runAny (anyEnv env) p w.
Proof.
  revert w. induction p as [a | e | c k IH]; intros w; try reflexivity.
  cbn. unfold anyEnv at 1. destruct (env c w) as [x w']. f_equal. apply IH.
Qed.

Lemma log_calls_return {W A : Type} (env : Env W) (p : Prog A) (w : W)
    (m : ILogger.method) (x : Completion unit) :
  answered (Logger m) x (run env p w) -> x = Returned tt.
Proof.
  unfold answered. revert w.
  induction p as [a | e | c k IH]; intros w; cbn; try tauto.
  destruct (env c w) as [y w']. cbn. intros [H | H]; [| eauto].
  pose proof (Ev_call _ _ _ _ H) as ->. apply Ev_inj in H. by subst x.
Qed.









(** The same failure of the store with a logger that returns: the caller
    gets the 503. *)
Example deleteClient_store_error_is_503 :
  outcome (run (Mock.env Fixtures.unset)
               (clientRepositoryImpl
                  (IClientRepository.deleteClient "clientId")) tt)
  = Resolved (Rejected (Exception ClientRepository.dynamoDBDown)).
Proof. reflexivity. Qed.

(** ** The methods on the in-memory store *)

(** The store's part of the state after a run and what the methods do to
    it.  [others] answers the logger, the clock and the id generator. *)
Lemma inMemory_getClientById {W : Type} (others : Env W) (w : W)
    (table : gmap string Client.t) (clientId : string) :
  let r := run (InMemory.env others)
               (ClientRepository.getClientById clientId) (table, w) in
  outcome r = match table !! clientId with
              | Some item => Resolved item
              | None => Rejected (Exception
                          (ClientRepository.noClientWithId clientId))
              end /\
  (world r).1 = table.
Proof.
  intros r. subst r. unfold ClientRepository.getClientById.
  cbn. unfold InMemory.onTable, InMemory.get. cbn.
  change (bool_decide (ClientRepository.TABLE_NAME = "Client")) with true.
  rewrite lookup_singleton_eq. cbn.
  destruct (table !! clientId) as [item |]; cbn;
    match goal with
    | |- context [others ?c w] => destruct (others c w) as [[] w1]
    end; split; reflexivity.
Qed.

Lemma inMemory_getClientByLogin {W : Type} (others : Env W) (w : W)
    (table : gmap string Client.t) (login : string) :
  let r := run (InMemory.env others)
               (ClientRepository.getClientByLogin login) (table, w) in
  outcome r = match filter (fun item => Client.login item = login)
                           (map_to_list table).*2 with
              | first :: _ => Resolved first
              | [] => Rejected (Exception
                        (ClientRepository.noClientWithLogin login))
              end /\
  (world r).1 = table.
Proof.
  intros r. subst r. unfold ClientRepository.getClientByLogin.
  cbn. unfold InMemory.onTable, InMemory.query. cbn.
  change (bool_decide (ClientRepository.TABLE_NAME = "Client")) with true.
  change (Expression.clause "login = :login")
    with (Some (["login"], ":login")).
  cbv iota beta. rewrite lookup_singleton_eq.
  change (bool_decide ("LoginIndex" = "LoginIndex")) with true.
  cbn.
  destruct (filter (fun item => Client.login item = login)
                   (map_to_list table).*2) as [| first rest]; cbn;
    match goal with
    | |- context [others ?c w] => destruct (others c w) as [[] w1]
    end; split; reflexivity.
Qed.

Lemma inMemory_createClient {W : Type} (others : Env W) (w : W)
    (table : gmap string Client.t) (input : ClientInput.t) :
  let r := run (InMemory.env others)
               (ClientRepository.createClient input) (table, w) in
  exists now id : string,
    let entry :=
      {| Client.clientId := id;
         Client.login := ClientInput.login input;
         Client.password := ClientInput.password input;
         Client.metadata :=
           {| Metadata.createdDate := now; Metadata.updatedDate := now |} |} in
    (forall id' : string, answered Uuid id' r <-> id' = id) /\
    outcome r = Resolved entry /\
    (world r).1 = <[ id := entry ]> table.
Proof.
  intros r. subst r. unfold ClientRepository.createClient.
  cbn. destruct (others DateNow w) as [now w1]. cbn.
  destruct (others Uuid w1) as [id w2]. cbn.
  unfold InMemory.onTable, InMemory.save. cbn.
  change (bool_decide (ClientRepository.TABLE_NAME = "Client")) with true.
  cbn.
  match goal with
  | |- context [others ?c w2] => destruct (others c w2) as [[] w3]
  end.
  exists now, id. split; [| split; reflexivity].
  intros id'. split; [| intros ->; unfold answered; cbn; auto].
  intros H. which_event H; try discriminate H. congruence.
Qed.

Lemma inMemory_deleteClient {W : Type} (others : Env W) (w : W)
    (table : gmap string Client.t) (clientId : string) :
  let r := run (InMemory.env others)
               (ClientRepository.deleteClient clientId) (table, w) in
  outcome r = Resolved tt /\
  (world r).1 = delete clientId table.
Proof.
  intros r. subst r. unfold ClientRepository.deleteClient.
  cbn. unfold InMemory.onTable, InMemory.delete. cbn.
  change (bool_decide (ClientRepository.TABLE_NAME = "Client")) with true.
  rewrite lookup_singleton_eq. cbn.
  match goal with
  | |- context [others ?c w] => destruct (others c w) as [[] w1]
  end.
  split; reflexivity.
Qed.

(** The values of the index query: the stored records with the login. *)
Lemma loginIndex_elem (table : gmap string Client.t) (login : string)
    (c : Client.t) :
  c ∈ filter (fun item => Client.login item = login) (map_to_list table).*2
  <-> Client.login c = login /\ exists k, table !! k = Some c.
Proof.
  rewrite list_elem_of_filter, list_elem_of_fmap. split.
  - intros [Hlogin ([k c'] & -> & Hin)]. split; [done |].
    exists k. by apply elem_of_map_to_list.
  - intros [Hlogin [k Hk]]. split; [done |].
    exists (k, c). split; [done |]. by apply elem_of_map_to_list.
Qed.

(** X8.  Created, then read by id: on a store that keeps what it is given,
    [getClientById] of the id [createClient] resolved with resolves with
    the same record, password and both dates included. *)
Theorem createClient_then_getClientById
    (W : Type) (others : Env W) (w : W) (table : gmap string Client.t)
    (input : ClientInput.t) :
  let r := run (InMemory.env others)
               (ClientRepository.createClient input) (table, w) in
  exists entry : Client.t,
    outcome r = Resolved entry /\
    Client.login entry = ClientInput.login input /\
    Client.password entry = ClientInput.password input /\
    outcome (run (InMemory.env others)
                 (ClientRepository.getClientById (Client.clientId entry))
                 (world r))
    = Resolved entry.
Proof.
  intros r.
  destruct (inMemory_createClient others w table input)
    as (now & id & _ & Hout & Hworld).
  fold r in Hout, Hworld. eexists. split; [exact Hout |].
  split; [reflexivity |]. split; [reflexivity |].
  destruct (world r) as [table' w'] eqn:Hw. cbn in Hworld. subst table'.
  destruct (inMemory_getClientById others w'
              (<[ id := {| Client.clientId := id;
                           Client.login := ClientInput.login input;
                           Client.password := ClientInput.password input;
                           Client.metadata :=
                             {| Metadata.createdDate := now;
                                Metadata.updatedDate := now |} |} ]> table)
              id) as [Hget _].
  cbn in Hget |- *. rewrite Hget, lookup_insert_eq. reflexivity.
Qed.

(** X9.  [getClientByLogin] on the store: it resolves only with a stored
    record whose login is the one asked for, it does resolve when such a
    record is stored, and it rejects with the 404 when none is; the table
    is left as it was. *)
Theorem getClientByLogin_finds_stored_login
    (W : Type) (others : Env W) (w : W) (table : gmap string Client.t)
    (login : string) :
  let r := run (InMemory.env others)
               (ClientRepository.getClientByLogin login) (table, w) in
  (forall c : Client.t,
     outcome r = Resolved c ->
     Client.login c = login /\ exists k, table !! k = Some c) /\
  ((exists k c, table !! k = Some c /\ Client.login c = login) ->
   exists c : Client.t, outcome r = Resolved c) /\
  ((forall k c, table !! k = Some c -> Client.login c <> login) ->
   outcome r = Rejected (Exception
     {| PasswordManagerException.statusCode := 404;
        PasswordManagerException.message :=
          "No client exists with login '" ++ login ++ "'";
        PasswordManagerException.errorCode := ClientNotFound |})) /\
  (world r).1 = table.
Proof.
  intros r.
  destruct (inMemory_getClientByLogin others w table login) as [Hout Hworld].
  fold r in Hout, Hworld.
  pose proof (loginIndex_elem table login) as Helem.
  destruct (filter (fun item => Client.login item = login)
                   (map_to_list table).*2) as [| first rest].
  - split; [intros c Hc; congruence |].
    split; [| split; [intros _; exact Hout | exact Hworld]].
    intros (k & c & Hk & Hlogin). exfalso.
    assert (c ∈ @nil Client.t) as Hin by (apply Helem; eauto).
    by apply not_elem_of_nil in Hin.
  - assert (Client.login first = login /\ exists k, table !! k = Some first)
      as [Hlogin [k Hk]] by (apply Helem; left).
    split; [intros c Hc; rewrite Hout in Hc; simplify_eq; eauto |].
    split; [eauto |]. split; [| exact Hworld].
    intros Hnone. exfalso. exact (Hnone k first Hk Hlogin).
Qed.

(** X10.  Created, then looked up by login: when no stored record has the
    input's login, [getClientByLogin] of that login after [createClient]
    resolves with the record created. *)
Theorem createClient_then_getClientByLogin
    (W : Type) (others : Env W) (w : W) (table : gmap string Client.t)
    (input : ClientInput.t) :
  (forall k c, table !! k = Some c ->
               Client.login c <> ClientInput.login input) ->
  let r := run (InMemory.env others)
               (ClientRepository.createClient input) (table, w) in
  exists entry : Client.t,
    outcome r = Resolved entry /\
    outcome (run (InMemory.env others)
                 (ClientRepository.getClientByLogin (ClientInput.login input))
                 (world r))
    = Resolved entry.
Proof.
  intros Hfresh r.
  destruct (inMemory_createClient others w table input)
    as (now & id & _ & Hout & Hworld).
  fold r in Hout, Hworld. eexists. split; [exact Hout |].
  destruct (world r) as [table' w'] eqn:Hw. cbn in Hworld. subst table'.
  set (entry := {| Client.clientId := id;
                   Client.login := ClientInput.login input;
                   Client.password := ClientInput.password input;
                   Client.metadata :=
                     {| Metadata.createdDate := now;
                        Metadata.updatedDate := now |} |}) in *.
  destruct (inMemory_getClientByLogin others w' (<[ id := entry ]> table)
              (ClientInput.login input)) as [Hget _].
  cbn in Hget |- *. rewrite Hget.
  pose proof (loginIndex_elem (<[ id := entry ]> table)
                (ClientInput.login input)) as Helem.
  destruct (filter (fun item => Client.login item = ClientInput.login input)
                   (map_to_list (<[ id := entry ]> table)).*2)
    as [| first rest].
  - exfalso. assert (entry ∈ @nil Client.t) as Hin.
    { apply Helem. split; [reflexivity |]. exists id. apply lookup_insert_eq. }
    by apply not_elem_of_nil in Hin.
  - assert (Client.login first = ClientInput.login input /\
            exists k, <[ id := entry ]> table !! k = Some first)
      as [Hlogin [k Hk]] by (apply Helem; left).
    f_equal. destruct (decide (id = k)) as [-> | Hne].
    + rewrite lookup_insert_eq in Hk. congruence.
    + rewrite lookup_insert_ne in Hk by done.
      exfalso. exact (Hfresh k first Hk Hlogin).
Qed.

(** A first client, on the empty store. *)
Lemma createClient_then_getClientByLogin_empty :
  exists entry : Client.t,
    outcome (run (InMemory.env (Mock.env Fixtures.unset))
                 (ClientRepository.createClient Fixtures.input) (∅, tt))
    = Resolved entry /\
    outcome (run (InMemory.env (Mock.env Fixtures.unset))
                 (ClientRepository.getClientByLogin "login")
                 (world (run (InMemory.env (Mock.env Fixtures.unset))
                             (ClientRepository.createClient Fixtures.input)
                             (∅, tt))))
    = Resolved entry.
Proof.
  refine (createClient_then_getClientByLogin
            unit (Mock.env Fixtures.unset) tt ∅ Fixtures.input _).
  intros k c Hk. by rewrite lookup_empty in Hk.
Defined.

(** X11.  Deleted, then read: after [deleteClient], which resolves whether
    or not the store held a record for the id, [getClientById] of the id
    rejects with the 404; the records under the other ids are as they
    were. *)
Theorem deleteClient_then_getClientById
    (W : Type) (others : Env W) (w : W) (table : gmap string Client.t)
    (clientId : string) :
  let r := run (InMemory.env others)
               (ClientRepository.deleteClient clientId) (table, w) in
  outcome r = Resolved tt /\
  outcome (run (InMemory.env others)
               (ClientRepository.getClientById clientId) (world r))
  = Rejected (Exception
      {| PasswordManagerException.statusCode := 404;
         PasswordManagerException.message :=
           "No client exists with ID '" ++ clientId ++ "'";
         PasswordManagerException.errorCode := ClientNotFound |}) /\
  (forall k c, k <> clientId -> (world r).1 !! k = Some c <-> table !! k = Some c).
Proof.
  intros r.
  destruct (inMemory_deleteClient others w table clientId) as [Hout Hworld].
  fold r in Hout, Hworld. split; [exact Hout |].
  destruct (world r) as [table' w'] eqn:Hw. cbn in Hworld. subst table'.
  destruct (inMemory_getClientById others w' (delete clientId table) clientId)
    as [Hget _].
  cbn in Hget |- *. rewrite Hget, lookup_delete_eq.
  split; [reflexivity |].
  intros k c Hne. by rewrite lookup_delete_ne.
Qed.

(** X12.  [deleteClient] of an id the store holds no record for resolves
    all the same and leaves the table as it was. *)
Theorem deleteClient_absent_record
    (W : Type) (others : Env W) (w : W) (table : gmap string Client.t)
    (clientId : string) :
  table !! clientId = None ->
  let r := run (InMemory.env others)
               (ClientRepository.deleteClient clientId) (table, w) in
  outcome r = Resolved tt /\ (world r).1 = table.
Proof.
  intros Hnone r.
  destruct (inMemory_deleteClient others w table clientId) as [Hout Hworld].
  fold r in Hout, Hworld. split; [exact Hout |].
  rewrite Hworld. by apply delete_id.
Qed.

(** A delete on the empty store. *)
Lemma deleteClient_on_empty_store :
  let r := run (InMemory.env (Mock.env Fixtures.unset))
               (ClientRepository.deleteClient "clientId") (∅, tt) in
  outcome r = Resolved tt /\ (world r).1 = ∅.
Proof.
  refine (deleteClient_absent_record
            unit (Mock.env Fixtures.unset) tt ∅ "clientId" _).
  apply lookup_empty.
Defined.

(** X13.  Deleted, then updated: the condition [attribute_exists(clientId)]
    of the update keeps [updateClient] from bringing the record back; it
    rejects with the 503 and the store still holds no record for the
    id. *)
Theorem deleteClient_then_updateClient
    (W : Type) (others : Env W) (w : W) (table : gmap string Client.t)
    (clientId : string) (input : ClientInput.t) :
  let r := run (InMemory.env others)
               (ClientRepository.deleteClient clientId) (table, w) in
  let r' := run (InMemory.env others)
                (ClientRepository.updateClient clientId input) (world r) in
  outcome r' = Rejected (Exception
    {| PasswordManagerException.statusCode := 503;
       PasswordManagerException.message := "Service Unavailable";
       PasswordManagerException.errorCode := DynamoDBDown |}) /\
  (world r').1 !! clientId = None /\
  (world r').1 = (world r).1.
Proof.
  intros r r'.
  destruct (inMemory_deleteClient others w table clientId) as [_ Hworld].
  fold r in Hworld. subst r'.
  destruct (world r) as [table' w'] eqn:Hw. cbn in Hworld. subst table'.
  destruct (updateClient_without_record W others w' (delete clientId table)
              clientId input (lookup_delete_eq _ _)) as [Hout Hsame].
  cbn in Hout, Hsame |- *. rewrite Hout, Hsame.
  split; [reflexivity |]. split; [apply lookup_delete_eq | reflexivity].
Qed.

(** ** The controller, whatever the crypto provider does *)

(** The loop, by what [decrypt] does at each record: either every call
    returns, and each record gets the answer to its call as its [value],
    or a call throws, the loop ends there with what was thrown, and the
    records after it are not decrypted. *)
Lemma forEach_decryptEntry_run {W : Type} (env : Env W)
    (stored : list Password.t) (w : W) :
  let r := run env (forEach decryptEntry stored) w in
  (exists answers : list string,
     length answers = length stored /\
     outcome r = Resolved (zip_with Password.setValue answers stored) /\
     events r
     = zip_with (fun s v => Ev (CryptoCall (Crypto.decrypt (Password.value s)))
                              (Returned v))
                stored answers) \/
  (exists (before : list Password.t) (s : Password.t)
          (after_ : list Password.t) (answers : list string)
          (reason : Thrown),
     stored = (before ++ s :: after_)%list /\
     length answers = length before /\
     outcome r = Rejected reason /\
     events r
     = (zip_with (fun s v => Ev (CryptoCall (Crypto.decrypt (Password.value s)))
                               (Returned v))
                 before answers
        ++ [Ev (CryptoCall (Crypto.decrypt (Password.value s)))
               (Threw reason)])%list).
Proof.
  revert w.
  induction stored as [| s stored IH]; intros w.
  { left. exists []. repeat split. }
  cbn.
  destruct (env (CryptoCall (Crypto.decrypt (Password.value s))) w)
    as [[v | reason] w']; cbn.
  - unfold mbind, Prog_bind. rewrite run_bind.
    destruct (IH w') as [(answers & Hlen & Hout & Hev)
                        | (before & s' & after_ & answers & reason
                           & Hstored & Hlen & Hout & Hev)];
      cbn zeta in Hout, Hev; rewrite Hout, Hev; cbn.
    + left. exists (v :: answers). cbn. rewrite app_nil_r.
      repeat split. by rewrite Hlen.
    + right. exists (s :: before), s', after_, (v :: answers), reason.
      cbn. rewrite Hstored. repeat split. by rewrite Hlen.
  - right. exists [], s, stored, [], reason. repeat split.
Qed.

(** X14.  [handler], for a list of records that are distinct objects
    (the loop on the objects is then the list-level one, by
    [InPlace_decryptEach_distinct]), empty or not, and whatever [decrypt]
    answers.  When every [decrypt] call returns, the handler resolves with
    200 / "Ok" and the records in their order, each with the answer to its
    own [decrypt] call as [value] and nothing else changed, after one call
    to the repository and one [decrypt] call per record, in order, on the
    stored value.  When a [decrypt] call throws, the handler rejects with
    what was thrown, as it is, and no record after that one is
    decrypted. *)
Theorem handler_decrypts_in_order
    (W : Type) (env : Env W) (w : W) (clientId : string)
    (stored : list Password.t) :
  let r := run env (GetPasswordsController.handler clientId) w in
  let asked :=
    Ev (PasswordRepo (IPasswordRepository.getPasswordsByClientId clientId))
       (Resolved stored) in
  let decrypted (s : Password.t) (v : string) :=
    Ev (CryptoCall (Crypto.decrypt (Password.value s))) (Returned v) in
  answered (PasswordRepo (IPasswordRepository.getPasswordsByClientId clientId))
           (Resolved stored) r ->
  (exists answers : list string,
     length answers = length stored /\
     outcome r = Resolved
       {| GetPasswordsResponse.statusCode := 200;
          GetPasswordsResponse.message := "Ok";
          GetPasswordsResponse.passwords :=
            zip_with Password.setValue answers stored |} /\
     events r = asked :: zip_with decrypted stored answers) \/
  (exists (before : list Password.t) (s : Password.t)
          (after_ : list Password.t) (answers : list string)
          (reason : Thrown),
     stored = (before ++ s :: after_)%list /\
     length answers = length before /\
     outcome r = Rejected reason /\
     events r
     = (asked :: zip_with decrypted before answers
        ++ [Ev (CryptoCall (Crypto.decrypt (Password.value s)))
               (Threw reason)])%list).
Proof.
  intros r asked decrypted H. subst r asked decrypted.
  unfold GetPasswordsController.handler in *.
  cbn in *. ask.
  destruct a as [stored' | reason]; cbn in *.
  - unfold mbind, Prog_bind in *. rewrite run_bind in *.
    assert (stored' = stored) as ->.
    { pose proof (forEach_decryptEntry_only_decrypts env stored' w0) as Hcalls.
      assert (In (Ev (PasswordRepo
                        (IPasswordRepository.getPasswordsByClientId clientId))
                     (Resolved stored))
                 (Ev (PasswordRepo
                        (IPasswordRepository.getPasswordsByClientId clientId))
                     (Resolved stored')
                  :: events (run env (forEach decryptEntry stored') w0)))
        as [H' | H'].
      { unfold answered in H.
        destruct (outcome (run env (forEach decryptEntry stored') w0));
          cbn in H; rewrite ?app_nil_r in H; exact H. }
      - same_event H'. congruence.
      - exfalso. apply (in_map callOf) in H'. rewrite Forall_forall in Hcalls.
        apply list_elem_of_In, Hcalls in H'. discriminate H'. }
    clear H.
    destruct (forEach_decryptEntry_run env stored w0)
      as [(answers & Hlen & Hout & Hev)
         | (before & s & after_ & answers & reason
            & Hstored & Hlen & Hout & Hev)];
      cbn zeta in Hout, Hev; rewrite Hout, Hev; cbn.
    + left. exists answers. rewrite app_nil_r. repeat split. exact Hlen.
    + right. exists before, s, after_, answers, reason. repeat split; auto.
  - which_event H. discriminate H.
Qed.

(** The set-up of the unit test: one record, and a [decrypt] that
    returns. *)
Lemma handler_one_password :
  let r := run (Mock.env Fixtures.onePassword)
               (GetPasswordsController.handler "clientId") tt in
  exists answers : list string,
    length answers = 1%nat /\
    outcome r = Resolved
      {| GetPasswordsResponse.statusCode := 200;
         GetPasswordsResponse.message := "Ok";
         GetPasswordsResponse.passwords :=
           zip_with Password.setValue answers [Fixtures.password] |}.
Proof.
  destruct (handler_decrypts_in_order
              unit (Mock.env Fixtures.onePassword) tt "clientId"
              [Fixtures.password])
    as [(answers & Hlen & Hout & _)
       | (before & s & after_ & answers & reason & _ & _ & Hout & _)].
  - left. reflexivity.
  - exists answers. split; [exact Hlen | exact Hout].
  - discriminate Hout.
Defined.

(** A [decrypt] that throws at the second of three records: the third is
    not decrypted and the handler rejects with what was thrown. *)
Example handler_decrypt_throws :
  let throwsAtSecond : Env unit :=
    fun c w =>
      match c return Reply c * unit with
      | PasswordRepo (IPasswordRepository.getPasswordsByClientId _) =>
          (Resolved [Password.setValue "one" Fixtures.password;
                     Password.setValue "two" Fixtures.password;
                     Password.setValue "three" Fixtures.password], w)
      | CryptoCall (Crypto.decrypt "two") => (Threw Mock.somethingBroke, w)
      | c => Mock.env Fixtures.unset c w
      end in
  let r := run throwsAtSecond (GetPasswordsController.handler "clientId") tt in
  outcome r = Rejected Mock.somethingBroke /\
  List.filter isDecrypt (calls r)
  = [CryptoCall (Crypto.decrypt "one"); CryptoCall (Crypto.decrypt "two")].
Proof. split; reflexivity. Qed.

(** ** What the methods keep of the table *)

Lemma inMemory_updateClient {W : Type} (others : Env W) (w : W)
    (table : gmap string Client.t) (clientId : string)
    (input : ClientInput.t) :
  let r := run (InMemory.env others)
               (ClientRepository.updateClient clientId input) (table, w) in
  match table !! clientId with
  | Some item =>
      exists now : string,
        (world r).1
        = <[ clientId :=
               {| Client.clientId := Client.clientId item;
                  Client.login := ClientInput.login input;
                  Client.password := ClientInput.password input;
                  Client.metadata :=
                    {| Metadata.createdDate :=
                         Metadata.createdDate (Client.metadata item);
                       Metadata.updatedDate := now |} |} ]> table
  | None => (world r).1 = table
  end.
Proof.
  intros r. destruct (table !! clientId) as [item |] eqn:Hitem.
  - subst r. unfold ClientRepository.updateClient.
    cbn. destruct (others DateNow w) as [now w1]. cbn.
    unfold InMemory.onTable. cbn.
    rewrite (update_present clientId input now table item Hitem).
    change (bool_decide (ClientRepository.TABLE_NAME = "Client")) with true.
    cbn.
    match goal with
    | |- context [others ?c w1] => destruct (others c w1) as [[] w2]
    end.
    unfold InMemory.onTable, InMemory.get. cbn.
    change (bool_decide (ClientRepository.TABLE_NAME = "Client")) with true.
    rewrite lookup_singleton_eq, lookup_insert_eq. cbn.
    match goal with
    | |- context [others ?c w2] => destruct (others c w2) as [[] w3]
    end.
    exists now. reflexivity.
  - exact (proj2 (updateClient_without_record W others w table clientId
                    input Hitem)).
Qed.

(** X15.  [updateClient] neither adds a record to the table nor takes one
    away, whether or not the table holds a record for the id: the set of
    stored ids after the call is the set before it. *)
Theorem updateClient_keeps_the_ids
    (W : Type) (others : Env W) (w : W) (table : gmap string Client.t)
    (clientId : string) (input : ClientInput.t) :
  let r := run (InMemory.env others)
               (ClientRepository.updateClient clientId input) (table, w) in
  dom (world r).1 = dom table.
Proof.
  intros r.
  pose proof (inMemory_updateClient others w table clientId input) as H.
  fold r in H. destruct (table !! clientId) as [item |] eqn:Hitem.
  - destruct H as [now ->]. rewrite dom_insert_L.
    apply subseteq_union_1_L, singleton_subseteq_l, elem_of_dom. eauto.
  - by rewrite H.
Qed.

(** X16.  [createClient] does not look the login up: two calls with the
    same input that get different ids from [uuid()] leave two records with
    the same login in the table, each under its id. *)
Theorem createClient_twice_two_records
    (W : Type) (others : Env W) (w : W) (table : gmap string Client.t)
    (input : ClientInput.t) (id1 id2 : string) :
  let r1 := run (InMemory.env others)
                (ClientRepository.createClient input) (table, w) in
  let r2 := run (InMemory.env others)
                (ClientRepository.createClient input) (world r1) in
  answered Uuid id1 r1 ->
  answered Uuid id2 r2 ->
  id1 <> id2 ->
  exists first second : Client.t,
    outcome r1 = Resolved first /\
    outcome r2 = Resolved second /\
    (world r2).1 !! id1 = Some first /\
    (world r2).1 !! id2 = Some second /\
    Client.login first = ClientInput.login input /\
    Client.login second = ClientInput.login input /\
    calledTimes isStoreRead r1 = 0%nat /\
    calledTimes isStoreRead r2 = 0%nat.
Proof.
  intros r1 r2 Hid1 Hid2 Hne.
  destruct (inMemory_createClient others w table input)
    as (now1 & id1' & Huuid1 & Hout1 & Hworld1).
  fold r1 in Huuid1, Hout1, Hworld1.
  apply Huuid1 in Hid1 as ->.
  assert (calledTimes isStoreRead r1 = 0%nat) as Hread1.
  { subst r1. clear. unfold ClientRepository.createClient. cbn.
    destruct (others DateNow w) as [now w1]. cbn.
    destruct (others Uuid w1) as [id w2]. cbn.
    unfold InMemory.onTable, InMemory.save. cbn.
    change (bool_decide (ClientRepository.TABLE_NAME = "Client")) with true.
    cbn.
    match goal with
    | |- context [others ?c w2] => destruct (others c w2) as [[] w3]
    end.
    reflexivity. }
  subst r2. destruct (world r1) as [table1 w1] eqn:Hw1.
  cbn in Hworld1. subst table1.
  match goal with
  | |- context [<[ id1' := ?e ]> table] => set (first := e) in *
  end.
  destruct (inMemory_createClient others w1 (<[ id1' := first ]> table) input)
    as (now2 & id2' & Huuid2 & Hout2 & Hworld2).
  apply Huuid2 in Hid2 as ->.
  assert (calledTimes isStoreRead
            (run (InMemory.env others) (ClientRepository.createClient input)
                 (<[ id1' := first ]> table, w1)) = 0%nat) as Hread2.
  { clear. unfold ClientRepository.createClient. cbn.
    destruct (others DateNow w1) as [now w2]. cbn.
    destruct (others Uuid w2) as [id w3]. cbn.
    unfold InMemory.onTable, InMemory.save. cbn.
    change (bool_decide (ClientRepository.TABLE_NAME = "Client")) with true.
    cbn.
    match goal with
    | |- context [others ?c w3] => destruct (others c w3) as [[] w4]
    end.
    reflexivity. }
  eexists first, _. split; [exact Hout1 |]. split; [exact Hout2 |].
  rewrite Hworld2.
  split; [by rewrite lookup_insert_ne, lookup_insert_eq |].
  split; [by rewrite lookup_insert_eq |].
  repeat split; assumption.
Qed.

(** Two clients with the login ['login'], the ids being ['a'] and
    ['b']. *)
Lemma createClient_twice_same_login :
  let r1 := run (InMemory.env handingOut)
                (ClientRepository.createClient Fixtures.input)
                (∅, ["a"; "b"]) in
  let r2 := run (InMemory.env handingOut)
                (ClientRepository.createClient Fixtures.input) (world r1) in
  exists first second : Client.t,
    outcome r1 = Resolved first /\
    outcome r2 = Resolved second /\
    (world r2).1 !! "a" = Some first /\
    (world r2).1 !! "b" = Some second /\
    Client.login first = "login" /\
    Client.login second = "login" /\
    calledTimes isStoreRead r1 = 0%nat /\
    calledTimes isStoreRead r2 = 0%nat.
Proof.
  refine (createClient_twice_two_records
            _ handingOut ["a"; "b"] ∅ Fixtures.input "a" "b" _ _ _).
  - right. left. reflexivity.
  - right. left. reflexivity.
  - discriminate.
Defined.


